(** * SkyStack: the PixInsight driver scripts

    A shallow embedding of the three scripts that SkyStack hands to the
    PixInsight JavaScript runtime:

    - the stacking script (ImageIntegration), which exists in two versions:
      one that ends by writing the sentinel [basic_stack_complete.tmp] and
      one that ends by printing [Done.];
    - the calibration script (ImageCalibration);
    - the launch helper, which writes the sentinel [launch_done.tmp].

    The scripts are effectful: they read files, print on the console, call
    the engine, throw and call [exit].  They are embedded as programs of a
    small monad over a [World] (file system and active image window) that
    also collects the observable [event]s of a run.  Everything the scripts
    take from the runtime (JSON.parse, the engine, failing file operations,
    the line terminator of outTextLn, number formatting) is a field of the
    [Host] record, so every theorem holds for every runtime. *)

From Stdlib Require Import ZArith Ascii String DecimalString.
From stdpp Require Import base gmap strings list.

Local Open Scope Z_scope.

(** ** JavaScript strings

    A string is a sequence of code units; [ascii] stands for the code
    unit.  [toLowerCase] maps the letters A-Z and leaves every other unit
    in place, which is what the scripts rely on: its only use is the test
    for the ASCII suffix [.fits]. *)

Module JsString.

Definition lower_unit (c : ascii) : ascii :=
  let n := nat_of_ascii c in
  if ((65 <=? n) && (n <=? 90))%nat then ascii_of_nat (n + 32) else c.

Fixpoint toLowerCase (s : string) : string :=
  match s with
  | EmptyString => EmptyString
  | String c r => String (lower_unit c) (toLowerCase r)
  end.

(** [s.endsWith(t)]: the last [length t] units of [s] are [t]. *)
Definition endsWith (s t : string) : bool :=
  let n := String.length s in
  let k := String.length t in
  if (k <=? n)%nat then String.eqb (String.substring (n - k) k s) t else false.

(** [s.slice(0, -k)]: [s] without its last [k] units, empty when [s] is
    shorter than that. *)
Definition slice0 (s : string) (k : nat) : string :=
  String.substring 0 (String.length s - k) s.

End JsString.

(** ** The output path (stacking script, lines 75-76)

    [base] and [finalPath] are the two [let]s of the branch that saves the
    integrated image. *)

Definition base (outputPath : string) : string :=
  if JsString.endsWith (JsString.toLowerCase outputPath) ".fits"
  then JsString.slice0 outputPath 5
  else outputPath.

Definition finalPath (outputPath : string) : string :=
  base outputPath +:+ ".fits".

(** ** JSON documents and the values read off them

    [json] is what JSON.parse returns.  Numerals are integers: the two
    configuration files hold paths, and the scripts do no arithmetic.  The
    members of an object are listed in insertion order, each key once. *)

#[warnings="-register-all"]
Inductive json :=
| JNull
| JBool (b : bool)
| JNum (n : Z)
| JStr (s : string)
| JArr (items : list json)
| JObj (members : list (string * json)).

(** A JavaScript value as the scripts meet it: a parsed JSON value, or
    [undefined] from reading a property that is not there. *)
Inductive jsval :=
| undefined
| Js (j : json).

(** Thrown values.  [message] is what a [catch] block prints.  The
    scripts throw [Error] themselves; JSON.parse throws [SyntaxError];
    [TypeError] is what the runtime throws when a script reads a property
    of null or calls what is no function (its wording of the message is
    the runtime's own and plays no part below). *)
Inductive exn :=
| Error (msg : string)
| TypeError (msg : string)
| SyntaxError (msg : string).

Definition message (e : exn) : string :=
  match e with
  | Error m | TypeError m | SyntaxError m => m
  end.

(** ** The engine's process instances

    A record holds the parameters the script assigns, in the order of the
    assignments; parameters the script leaves alone keep the engine's
    defaults and are not part of the model. *)

Inductive IntegrationConstant :=
| Average | AdditiveWithScaling | WinsorizedSigmaClip | Scale | DontCare.

Record ImageIntegration := {
  images : list (bool * json * string * string);
  combination : IntegrationConstant;
  normalization : IntegrationConstant;
  rejection : IntegrationConstant;
  rejectionNormalization : IntegrationConstant;
  weightMode : IntegrationConstant;
  evaluateSNR : bool;
  sigmaLow : Z;
  sigmaHigh : Z;
  generateIntegratedImage : bool;
  generateRejectionMaps : bool;
  generate64BitResult : bool;
  autoMemorySize : bool;
  noGUIMessages : bool;
  showImages : bool
}.

Inductive CalibrationConstant :=
| CalibrateAndCorrect | Median | NoiseEvaluation_MRS | PSFType_Moffat4.

Record ImageCalibration := {
  targetFrames : list (bool * json);
  masterBiasEnabled : bool;
  masterDarkEnabled : bool;
  masterFlatEnabled : bool;
  masterDarkPath : jsval;
  masterFlatPath : jsval;
  calibrationMode : CalibrationConstant;
  darkOptimization : bool;
  flatNormalization : CalibrationConstant;
  useDarksForBias : bool;
  useFlatsForBias : bool;
  enableCFA : bool;
  cosmeticCorrection : bool;
  cosmeticCorrectionHigh : bool;
  evaluateNoise : bool;
  noiseEvaluationAlgorithm : CalibrationConstant;
  evaluateSignal : bool;
  psfType : CalibrationConstant;
  outputDirectory : jsval;
  overwriteExistingFiles : bool;
  outputPostfix : jsval
}.

(** [ImageWindow.activeWindow] is an image window or the null window. *)
Inductive ImageWindow :=
| NullWindow
| Window (id : nat).

Definition isNull (win : ImageWindow) : bool :=
  match win with
  | NullWindow => true
  | Window _ => false
  end.

(** ** The world and the host

    The [World] is what a script can change: regular files with their
    text, directories, and the engine's active window. *)

Record World := {
  files : gmap string string;
  directories : gset string;
  activeWindow : ImageWindow
}.

(** What a run shows to the outside, in order. *)
Inductive event :=
| Writeln (text : string)
| Criticalln (text : string)
| ExecuteIntegration (P : ImageIntegration)
| ExecuteCalibration (P : ImageCalibration)
| SaveAs (win : nat) (filePath : string)
    (queryOptions warnings strict overwriteProtection : bool).

(** File operations that the runtime may fail with a thrown error. *)
Inductive io_call :=
| ReadTextFile (path : string)
| DirectoryExists (path : string)
| CreateDirectory (path : string)
| CreateForWriting (path : string)
| OutTextLn (path : string) (text : string)
| Close (path : string).

(** The runtime and the engine.  [JSON_parse] is the built-in parser;
    [NumberToString] and [StringToNumber] are the runtime's conversions
    between numbers and strings ([None] is NaN); [eol] is what outTextLn
    writes after its text; [io_fault] says which file operations throw;
    [integrate] is ImageIntegration's executeGlobal, which throws or
    returns and leaves an active window; [calibrate] is ImageCalibration's
    executeGlobal, which throws or returns, and [calibrate_world] is the
    world it leaves (the corrected frames it wrote); [save_fault] says
    which saveAs calls throw, [saved_image] is the file a saveAs call
    that returns has written for a window, and [save_partial] is what a
    saveAs call that throws leaves at the path, if anything. *)
Record Host := {
  JSON_parse : string -> exn + json;
  NumberToString : Z -> string;
  StringToNumber : string -> option Z;
  eol : string;
  io_fault : io_call -> option exn;
  integrate : ImageIntegration -> ImageWindow -> exn + ImageWindow;
  calibrate : ImageCalibration -> option exn;
  calibrate_world : ImageCalibration -> World -> World;
  save_fault : nat -> string -> option exn;
  saved_image : nat -> string;
  save_partial : nat -> string -> option string
}.

(** ** The monad of script runs

    A statement ends normally with a value, by a thrown value, or by
    [exit] with a status. *)

Inductive result (A : Type) :=
| Normal (a : A)
| Thrown (e : exn)
| Exited (status : Z).

Arguments Normal {A} a.
Arguments Thrown {A} e.
Arguments Exited {A} status.

Record Run (A : Type) := {
  outcome : result A;
  world : World;
  events : list event
}.

Arguments outcome {A} _.
Arguments world {A} _.
Arguments events {A} _.

Definition M (A : Type) : Type := World -> Run A.

(** A run that went on after the events [evs]. *)
Definition after {A} (evs : list event) (r : Run A) : Run A :=
  {| outcome := outcome r; world := world r; events := evs ++ events r |}.

Definition ret {A} (a : A) : M A :=
  fun w => {| outcome := Normal a; world := w; events := [] |}.

Definition bind {A B} (m : M A) (k : A -> M B) : M B :=
  fun w =>
    let r := m w in
    match outcome r with
    | Normal a => after (events r) (k a (world r))
    | Thrown e => {| outcome := Thrown e; world := world r; events := events r |}
    | Exited n => {| outcome := Exited n; world := world r; events := events r |}
    end.

#[global] Instance M_ret : MRet M := @ret.
#[global] Instance M_bind : MBind M := fun A B k m => bind m k.

Definition throw {A} (e : exn) : M A :=
  fun w => {| outcome := Thrown e; world := w; events := [] |}.

(** The runtime's [exit(status)]: the run stops there with that status. *)
Definition exit {A} (status : Z) : M A :=
  fun w => {| outcome := Exited status; world := w; events := [] |}.

(** [try { body } catch (error) { handler }]: a thrown value is handed to
    the handler; [exit] is not a thrown value. *)
Definition try_catch (body : M unit) (handler : exn -> M unit) : M unit :=
  fun w =>
    let r := body w in
    match outcome r with
    | Thrown e => after (events r) (handler e (world r))
    | _ => r
    end.

Definition emit (e : event) : M unit :=
  fun w => {| outcome := Normal (); world := w; events := [e] |}.

(** The projections of a run's events that the claims count. *)
Definition engine_calls (evs : list event) : list ImageIntegration :=
  omap (fun e => match e with ExecuteIntegration P => Some P | _ => None end) evs.

Definition calibration_calls (evs : list event) : list ImageCalibration :=
  omap (fun e => match e with ExecuteCalibration P => Some P | _ => None end) evs.

Definition save_calls (evs : list event) : list (nat * string * (bool * bool * bool * bool)) :=
  omap (fun e => match e with
                 | SaveAs win path q wn st ov => Some (win, path, (q, wn, st, ov))
                 | _ => None
                 end) evs.

Definition critical_lines (evs : list event) : list string :=
  omap (fun e => match e with Criticalln t => Some t | _ => None end) evs.

(** Names for what the theorems about the stacking scripts mention: the
    first two console lines and the frame descriptors of line 40-47. *)
Definition banner : event := Writeln "== Basic Stacking Script for PixInsight CLI ==".
Definition running : event := Writeln ">> Running ImageIntegration...".

Definition calibration_banner : event := Writeln "== Calibration Script for PixInsight CLI ==".

Definition frames_of (l : list json) : list (bool * json * string * string) :=
  map (fun f => (true, f, EmptyString, EmptyString)) l.

(** ** The runtime's library, as the scripts use it *)

Section Runtime.

Context (host : Host).

(** [console.writeln] and [Console.writeln] print on the same console. *)
Definition writeln (text : string) : M unit := emit (Writeln text).
Definition criticalln (text : string) : M unit := emit (Criticalln text).

(** Truthiness, as [!inputFiles] tests it. *)
Definition ToBoolean (j : json) : bool :=
  match j with
  | JNull => false
  | JBool b => b
  | JNum n => negb (n =? 0)
  | JStr s => negb (String.eqb s "")
  | JArr _ | JObj _ => true
  end.

Fixpoint own (members : list (string * json)) (key : string) : jsval :=
  match members with
  | [] => undefined
  | (k, v) :: rest => if String.eqb k key then Js v else own rest key
  end.

(** Conversion to a string, as [+] with a string operand and [<] with a
    number operand do it to a value that is no number: an array is its
    elements joined by commas, null elements left empty; an object is
    [[object Object]], unless it has a member [toString] of its own,
    which, coming from JSON, is no function: then the conversion throws
    a TypeError ([None]). *)
Fixpoint ToString_json (j : json) : option string :=
  match j with
  | JNull => Some "null"
  | JBool b => Some (if b then "true" else "false")
  | JNum n => Some (NumberToString host n)
  | JStr s => Some s
  | JArr items =>
      (fix join (l : list json) : option string :=
         match l with
         | [] => Some EmptyString
         | x :: r =>
             match (match x with JNull => Some EmptyString | _ => ToString_json x end) with
             | None => None
             | Some sx =>
                 match r with
                 | [] => Some sx
                 | _ :: _ =>
                     match join r with
                     | None => None
                     | Some sr => Some (sx +:+ "," +:+ sr)
                     end
                 end
             end
         end) items
  | JObj members =>
      match own members "toString" with
      | undefined => Some "[object Object]"
      | Js _ => None
      end
  end.

Definition ToString (v : jsval) : option string :=
  match v with
  | undefined => Some "undefined"
  | Js j => ToString_json j
  end.

(** ["text" + v]: the concatenation, or the TypeError of the conversion. *)
Definition plus (text : string) (v : jsval) : M string :=
  match ToString v with
  | Some s => mret (text +:+ s)
  | None => throw (TypeError "cannot convert object to primitive value")
  end.

(** Conversion to a number, as [<] with a number operand does it: the
    outer [None] is the TypeError of the conversion, the inner one is
    NaN. *)
Definition ToNumber (v : jsval) : option (option Z) :=
  match v with
  | undefined => Some None
  | Js JNull => Some (Some 0)
  | Js (JBool b) => Some (Some (if b then 1 else 0))
  | Js (JNum n) => Some (Some n)
  | Js (JStr s) => Some (StringToNumber host s)
  | Js (JArr items) => StringToNumber host <$> ToString_json (JArr items)
  | Js (JObj members) => StringToNumber host <$> ToString_json (JObj members)
  end.

(** [v < k] for a number [k]: false when [v] converts to NaN, [None]
    when the conversion throws. *)
Definition lessThan (v : jsval) (k : Z) : option bool :=
  match ToNumber v with
  | None => None
  | Some None => Some false
  | Some (Some n) => Some (n <? k)
  end.

(** [o.key] and [o[0]] for the keys the scripts read: [length], [0] and
    the parameter names, none of which is inherited from a prototype. *)
Definition property (o : json) (key : string) : jsval :=
  match o with
  | JArr items =>
      if String.eqb key "length" then Js (JNum (Z.of_nat (length items)))
      else if String.eqb key "0" then
        match items with
        | [] => undefined
        | x :: _ => Js x
        end
      else undefined
  | JStr s =>
      if String.eqb key "length" then Js (JNum (Z.of_nat (String.length s)))
      else if String.eqb key "0" then
        match s with
        | EmptyString => undefined
        | String c _ => Js (JStr (String c EmptyString))
        end
      else undefined
  | JObj members => own members key
  | JNull | JBool _ | JNum _ => undefined
  end.

(** Reading a property of null throws. *)
Definition member (o : json) (key : string) : M jsval :=
  match o with
  | JNull => throw (TypeError ("null has no properties: " +:+ key))
  | _ => mret (property o key)
  end.

(** [a.map(f)]: only an array has [map]. *)
Definition Array_map {B} (a : json) (f : json -> B) : M (list B) :=
  match a with
  | JArr items => mret (map f items)
  | _ => throw (TypeError "map is not a function")
  end.

(** The receiver of [outputPath.toLowerCase()]: only a string has the
    method. *)
Definition string_receiver (v : jsval) : M string :=
  match v with
  | Js (JStr s) => mret s
  | _ => throw (TypeError "toLowerCase is not a function")
  end.

Definition File_exists (path : string) : M bool :=
  fun w => ret (bool_decide (is_Some (files w !! path))) w.

(** [File.readTextFile(path)]; the scripts call it only after
    [File.exists(path)] said yes. *)
Definition File_readTextFile (path : string) : M string :=
  fun w =>
    match io_fault host (ReadTextFile path), files w !! path with
    | Some e, _ => throw e w
    | None, Some text => ret text w
    | None, None => throw (Error ("File I/O error: " +:+ path)) w
    end.

Definition parse (text : string) : M json :=
  match JSON_parse host text with
  | inl e => throw e
  | inr j => mret j
  end.

Definition File_directoryExists (path : string) : M bool :=
  fun w =>
    match io_fault host (DirectoryExists path) with
    | Some e => throw e w
    | None => ret (bool_decide (path ∈ directories w)) w
    end.

Definition File_createDirectory (path : string) : M unit :=
  fun w =>
    match io_fault host (CreateDirectory path) with
    | Some e => throw e w
    | None =>
        {| outcome := Normal ();
           world := {| files := files w;
                       directories := {[ path ]} ∪ directories w;
                       activeWindow := activeWindow w |};
           events := [] |}
    end.

(** [file.createForWriting(path)]: the file exists and is empty. *)
Definition File_createForWriting (path : string) : M unit :=
  fun w =>
    match io_fault host (CreateForWriting path) with
    | Some e => throw e w
    | None =>
        {| outcome := Normal ();
           world := {| files := <[ path := EmptyString ]> (files w);
                       directories := directories w;
                       activeWindow := activeWindow w |};
           events := [] |}
    end.

(** [file.outTextLn(text)]: the text and the line terminator are added
    to the open file. *)
Definition File_outTextLn (path : string) (text : string) : M unit :=
  fun w =>
    match io_fault host (OutTextLn path text) with
    | Some e => throw e w
    | None =>
        {| outcome := Normal ();
           world := {| files := alter (fun old => old +:+ text +:+ eol host) path (files w);
                       directories := directories w;
                       activeWindow := activeWindow w |};
           events := [] |}
    end.

Definition File_close (path : string) : M unit :=
  fun w =>
    match io_fault host (Close path) with
    | Some e => throw e w
    | None => ret () w
    end.

(** [P.executeGlobal()] of an ImageIntegration instance: the call is
    shown, then the engine throws or returns and leaves its active
    window. *)
Definition executeGlobal_integration (P : ImageIntegration) : M unit :=
  fun w =>
    match integrate host P (activeWindow w) with
    | inl e => {| outcome := Thrown e; world := w; events := [ExecuteIntegration P] |}
    | inr win =>
        {| outcome := Normal ();
           world := {| files := files w; directories := directories w; activeWindow := win |};
           events := [ExecuteIntegration P] |}
    end.

(** [P.executeGlobal()] of an ImageCalibration instance: the call is
    shown, then the engine throws or returns; either way the world is
    what the engine left. *)
Definition executeGlobal_calibration (P : ImageCalibration) : M unit :=
  fun w =>
    match calibrate host P with
    | Some e =>
        {| outcome := Thrown e; world := calibrate_world host P w;
           events := [ExecuteCalibration P] |}
    | None =>
        {| outcome := Normal (); world := calibrate_world host P w;
           events := [ExecuteCalibration P] |}
    end.

Definition ImageWindow_activeWindow : M ImageWindow :=
  fun w => ret (activeWindow w) w.

(** The files after [saveAs] ran for window [id] on [filePath]: a call
    that returns has written the image there, over what was there; a
    call that throws leaves what the runtime says. *)
Definition saved_files (id : nat) (filePath : string)
    (before : gmap string string) : gmap string string :=
  match save_fault host id filePath with
  | None => <[ filePath := saved_image host id ]> before
  | Some _ =>
      match save_partial host id filePath with
      | Some part => <[ filePath := part ]> before
      | None => before
      end
  end.

(** What [saveAs] does after it was called: it writes, and throws or
    returns. *)
Definition write_image (id : nat) (filePath : string) : M unit :=
  fun w =>
    {| outcome := match save_fault host id filePath with
                  | Some e => Thrown e
                  | None => Normal ()
                  end;
       world := {| files := saved_files id filePath (files w);
                   directories := directories w;
                   activeWindow := activeWindow w |};
       events := [] |}.

(** [win.saveAs(path, ...)]: the call is shown, the file is written,
    then the call throws or returns.  A null window has no image to
    save. *)
Definition saveAs (win : ImageWindow) (filePath : string)
    (queryOptions warnings strict overwriteProtection : bool) : M unit :=
  match win with
  | NullWindow => throw (Error "saveAs: null window")
  | Window id =>
      emit (SaveAs id filePath queryOptions warnings strict overwriteProtection);;
      write_image id filePath
  end.

(** ** [readJson] (the same function in all three stage scripts) *)

Definition readJson (path : string) : M json :=
  ex ← File_exists path;
  (if negb ex then throw (Error ("Missing JSON file: " +:+ path)) else mret ());;
  text ← File_readTextFile path;
  parse text.

(** The three local names every [main] starts with. *)
Definition configDir : string := "C:/Temp/PixStack/".
Definition inputFilePath : string := configDir +:+ "input_files.json".
Definition paramFilePath : string := configDir +:+ "params.json".

(** [!inputFiles || inputFiles.length < least]: the right operand is
    read only when the left one is false. *)
Definition tooFew (inputFiles : json) (least : Z) : M bool :=
  if negb (ToBoolean inputFiles) then mret true
  else
    len ← member inputFiles "length";
    match lessThan len least with
    | Some few => mret few
    | None => throw (TypeError "cannot convert object to primitive value")
    end.

(** The value of that test ([None]: the comparison throws). *)
Definition count_test (inputFiles : json) (least : Z) : option bool :=
  if negb (ToBoolean inputFiles) then Some true
  else lessThan (property inputFiles "length") least.

(** The block that writes a sentinel; the stacking script (lines 92-109)
    and the launch helper (lines 6-23) have the same block with another
    file name.  [new File()] makes the file object; the three calls on it
    are told here which path it was opened on. *)
Definition signal (fileName : string) : M unit :=
  try_catch
    (let scriptDir := "C:/Temp/PixStack" in
     let filePath := scriptDir +:+ fileName in
     present ← File_directoryExists scriptDir;
     (if negb present then File_createDirectory scriptDir else mret ());;
     File_createForWriting filePath;;
     File_outTextLn filePath "done";;
     File_close filePath;;
     writeln ("Signal file created successfully: " +:+ filePath))
    (fun error => writeln ("Error creating signal file: " +:+ message error)).

(** No file operation of the sentinel block fails. *)
Definition io_ok (fileName : string) : Prop :=
  io_fault host (DirectoryExists "C:/Temp/PixStack") = None /\
  io_fault host (CreateDirectory "C:/Temp/PixStack") = None /\
  io_fault host (CreateForWriting ("C:/Temp/PixStack" +:+ fileName)) = None /\
  io_fault host (OutTextLn ("C:/Temp/PixStack" +:+ fileName) "done") = None /\
  io_fault host (Close ("C:/Temp/PixStack" +:+ fileName)) = None.

(** The process instance both stacking scripts build (lines 38-68). *)
Definition integration_instance (frames : list (bool * json * string * string)) : ImageIntegration :=
  {| images := frames;
     combination := Average;
     normalization := AdditiveWithScaling;
     rejection := WinsorizedSigmaClip;
     rejectionNormalization := Scale;
     weightMode := DontCare;
     evaluateSNR := false;
     sigmaLow := 4;
     sigmaHigh := 3;
     generateIntegratedImage := true;
     generateRejectionMaps := false;
     generate64BitResult := true;
     autoMemorySize := true;
     noGUIMessages := true;
     showImages := true |}.

(** The process instance the calibration script builds (lines 45-89). *)
Definition calibration_instance (frames : list (bool * json))
    (masterDark masterFlat outputDir prefix : jsval) : ImageCalibration :=
  {| targetFrames := frames;
     masterBiasEnabled := false;
     masterDarkEnabled := true;
     masterFlatEnabled := true;
     masterDarkPath := masterDark;
     masterFlatPath := masterFlat;
     calibrationMode := CalibrateAndCorrect;
     darkOptimization := false;
     flatNormalization := Median;
     useDarksForBias := false;
     useFlatsForBias := false;
     enableCFA := false;
     cosmeticCorrection := false;
     cosmeticCorrectionHigh := false;
     evaluateNoise := true;
     noiseEvaluationAlgorithm := NoiseEvaluation_MRS;
     evaluateSignal := true;
     psfType := PSFType_Moffat4;
     outputDirectory := outputDir;
     overwriteExistingFiles := true;
     outputPostfix := prefix |}.

(** [readJson(path)] returns [j] in the world [w]. *)
Definition loads (w : World) (path : string) (j : json) : Prop :=
  outcome (readJson path w) = Normal j.

(** Lines 16-89 of the stacking script, which both versions share: from
    the banner to the saved image or the thrown error. *)
Definition integrate_and_save : M unit :=
  writeln "== Basic Stacking Script for PixInsight CLI ==";;
  inputFiles ← readJson inputFilePath;
  params ← readJson paramFilePath;
  few ← tooFew inputFiles 2;
  (if few : bool then
     criticalln "Error: Need at least two input files.";;
     exit 1
   else mret ());;
  outputPath ← member params "output_path";
  frames ← Array_map inputFiles (fun f => (true, f, EmptyString, EmptyString));
  let P := integration_instance frames in
  writeln ">> Running ImageIntegration...";;
  executeGlobal_integration P;;
  win ← ImageWindow_activeWindow;
  if negb (isNull win) then
    receiver ← string_receiver outputPath;
    let finalPath := finalPath receiver in
    writeln ("Saving integrated image to: " +:+ finalPath);;
    saveAs win finalPath false false false false
  else
    throw (Error "No active image window after ImageIntegration — integration likely failed.").

End Runtime.

(** ** The stacking script that ends with the sentinel *)

Module StackSignal.

Definition main (host : Host) : M unit :=
  integrate_and_save host;;
  signal host "/basic_stack_complete.tmp".

(** The script is its last line, [main();]. *)
Definition script (host : Host) : M unit := main host.

End StackSignal.

(** ** The stacking script that ends with [Done.] *)

Module StackPlain.

Definition main (host : Host) : M unit :=
  integrate_and_save host;;
  writeln "Done.".

Definition script (host : Host) : M unit := main host.

End StackPlain.

(** Both versions of the stacking script. *)
Definition stacking_mains : list (Host -> M unit) := [StackSignal.main; StackPlain.main].

(** ** The calibration script *)

Module Calibration.

Definition main (host : Host) : M unit :=
  writeln "== Calibration Script for PixInsight CLI ==";;
  inputFiles ← readJson host inputFilePath;
  few ← tooFew host inputFiles 1;
  (if few : bool then
     writeln "Error: No input files found.";;
     criticalln "Error: Need at least one input file.";;
     exit 1
   else mret ());;
  len ← member inputFiles "length";
  loaded ← plus host "Input files loaded: " len;
  writeln loaded;;
  first ← member inputFiles "0";
  firstLine ← plus host "First input file: " first;
  writeln firstLine;;
  params ← readJson host paramFilePath;
  masterFlatPath ← member params "master_flat";
  masterDarkPath ← member params "master_dark";
  outputDir ← member params "output_dir";
  prefix ← member params "prefix";
  frames ← Array_map inputFiles (fun f => (true, f));
  writeln (NumberToString host (Z.of_nat (length frames)) +:+ " target frames loaded.");;
  flatLine ← plus host "Master flat: " masterFlatPath;
  writeln flatLine;;
  darkLine ← plus host "Master dark: " masterDarkPath;
  writeln darkLine;;
  let P := calibration_instance frames masterDarkPath masterFlatPath outputDir prefix in
  writeln ">> Running ImageCalibration...";;
  executeGlobal_calibration host P;;
  writeln ">> ImageCalibration completed successfully.";;
  savedLine ← plus host "Integrated images saved to: " outputDir;
  writeln savedLine.

Definition script (host : Host) : M unit := main host.

End Calibration.

(** What the calibration script has printed once it has counted the
    inputs of an array (lines 18, 30 and 31). *)
Definition input_lines (host : Host) (l : list json) (first : string) : list event :=
  [calibration_banner;
   Writeln ("Input files loaded: " +:+ NumberToString host (Z.of_nat (length l)));
   Writeln ("First input file: " +:+ first)].

(** ** The launch helper *)

Module LaunchHelper.

Definition script (host : Host) : M unit := signal host "/launch_done.tmp".

End LaunchHelper.

(** ** Concrete runs

    A runtime and a few worlds to run the scripts on.  The parser is the
    built-in one restricted to the five texts the worlds hold. *)

Module Scenario.

Definition quoted (s : string) : string :=
  String (ascii_of_nat 34) (s +:+ String (ascii_of_nat 34) EmptyString).

Definition two_inputs : string := "[" +:+ quoted "a.fits" +:+ "," +:+ quoted "b.fits" +:+ "]".
Definition one_input : string := "[" +:+ quoted "a.fits" +:+ "]".
Definition no_inputs : string := "[]".
Definition stack_params : string :=
  "{" +:+ quoted "output_path" +:+ ":" +:+ quoted "C:/out/stack" +:+ "}".
Definition calibration_params : string :=
  "{" +:+ quoted "master_flat" +:+ ":" +:+ quoted "C:/cal/flat.xisf" +:+ ","
      +:+ quoted "output_dir" +:+ ":" +:+ quoted "C:/cal/out" +:+ ","
      +:+ quoted "prefix" +:+ ":" +:+ quoted "_c" +:+ "}".

Definition parse_table (text : string) : exn + json :=
  if String.eqb text two_inputs then inr (JArr [JStr "a.fits"; JStr "b.fits"])
  else if String.eqb text one_input then inr (JArr [JStr "a.fits"])
  else if String.eqb text no_inputs then inr (JArr [])
  else if String.eqb text stack_params then inr (JObj [("output_path", JStr "C:/out/stack")])
  else if String.eqb text calibration_params then
    inr (JObj [("master_flat", JStr "C:/cal/flat.xisf");
               ("output_dir", JStr "C:/cal/out");
               ("prefix", JStr "_c")])
  else inl (SyntaxError "JSON.parse: unexpected character").

Definition line_feed : string := String (ascii_of_nat 10) EmptyString.

(** A calibration engine that writes one corrected frame. *)
Definition corrected_frames (P : ImageCalibration) (w : World) : World :=
  {| files := <[ "C:/cal/out/a_c.xisf" := "XISF0100" ]> (files w);
     directories := directories w;
     activeWindow := activeWindow w |}.

(** A runtime where nothing fails and the engine leaves window 1. *)
Definition runtime : Host :=
  {| JSON_parse := parse_table;
     NumberToString := fun n => DecimalString.NilEmpty.string_of_int (Z.to_int n);
     StringToNumber := fun s => Z.of_int <$> DecimalString.NilEmpty.int_of_string s;
     eol := line_feed;
     io_fault := fun _ => None;
     integrate := fun _ _ => inr (Window 1);
     calibrate := fun _ => None;
     calibrate_world := corrected_frames;
     save_fault := fun _ _ => None;
     saved_image := fun _ => "SIMPLE  =                    T";
     save_partial := fun _ _ => None |}.

(** The same runtime with an engine that returns without a result. *)
Definition runtime_no_result : Host :=
  {| JSON_parse := parse_table;
     NumberToString := NumberToString runtime;
     StringToNumber := StringToNumber runtime;
     eol := line_feed;
     io_fault := fun _ => None;
     integrate := fun _ _ => inr NullWindow;
     calibrate := fun _ => None;
     calibrate_world := corrected_frames;
     save_fault := fun _ _ => None;
     saved_image := fun _ => "SIMPLE  =                    T";
     save_partial := fun _ _ => None |}.

(** The same runtime with an engine that throws. *)
Definition runtime_engine_fails : Host :=
  {| JSON_parse := parse_table;
     NumberToString := NumberToString runtime;
     StringToNumber := StringToNumber runtime;
     eol := line_feed;
     io_fault := fun _ => None;
     integrate := fun _ _ => inl (Error "ImageIntegration: out of memory");
     calibrate := fun _ => Some (Error "ImageCalibration: no such file");
     calibrate_world := fun _ w => w;
     save_fault := fun _ _ => None;
     saved_image := fun _ => "SIMPLE  =                    T";
     save_partial := fun _ _ => None |}.

(** The same runtime with a disk that refuses new files. *)
Definition runtime_disk_full : Host :=
  {| JSON_parse := parse_table;
     NumberToString := NumberToString runtime;
     StringToNumber := StringToNumber runtime;
     eol := line_feed;
     io_fault := fun c => match c with
                          | CreateForWriting _ => Some (Error "disk full")
                          | _ => None
                          end;
     integrate := fun _ _ => inr (Window 1);
     calibrate := fun _ => None;
     calibrate_world := corrected_frames;
     save_fault := fun _ _ => None;
     saved_image := fun _ => "SIMPLE  =                    T";
     save_partial := fun _ _ => None |}.

(** A world with the working directory and the given configuration
    files, and no image window. *)
Definition world_with (config : list (string * string)) : World :=
  {| files := list_to_map config;
     directories := {[ "C:/Temp/PixStack" ]};
     activeWindow := NullWindow |}.

Definition two_frames : World :=
  world_with [(inputFilePath, two_inputs); (paramFilePath, stack_params)].
Definition single_frame : World :=
  world_with [(inputFilePath, one_input); (paramFilePath, stack_params)].
Definition no_frames : World :=
  world_with [(inputFilePath, no_inputs); (paramFilePath, stack_params)].
Definition no_frames_no_params : World :=
  world_with [(inputFilePath, no_inputs)].
Definition garbled_inputs : World :=
  world_with [(inputFilePath, "[a.fits"); (paramFilePath, stack_params)].
Definition empty_disk : World := world_with [].

End Scenario.

(** ** More concrete runs

    Worlds whose configuration files hold what a careless writer may
    leave there, and runtimes whose file operations fail half-way. *)

Module MoreRuns.

(** The parser of [Scenario], knowing three more texts. *)
Definition parse_table (text : string) : exn + json :=
  if String.eqb text "null" then inr JNull
  else if String.eqb text "{}" then inr (JObj [])
  else if String.eqb text (Scenario.quoted "ab") then inr (JStr "ab")
  else Scenario.parse_table text.

Definition runtime : Host :=
  {| JSON_parse := parse_table;
     NumberToString := NumberToString Scenario.runtime;
     StringToNumber := StringToNumber Scenario.runtime;
     eol := Scenario.line_feed;
     io_fault := fun _ => None;
     integrate := fun _ _ => inr (Window 1);
     calibrate := fun _ => None;
     calibrate_world := Scenario.corrected_frames;
     save_fault := fun _ _ => None;
     saved_image := fun _ => "SIMPLE  =                    T";
     save_partial := fun _ _ => None |}.

(** A disk that takes the new file and then refuses the line. *)
Definition runtime_short_write : Host :=
  {| JSON_parse := parse_table;
     NumberToString := NumberToString Scenario.runtime;
     StringToNumber := StringToNumber Scenario.runtime;
     eol := Scenario.line_feed;
     io_fault := fun c => match c with
                          | OutTextLn _ _ => Some (Error "write failed")
                          | _ => None
                          end;
     integrate := fun _ _ => inr (Window 1);
     calibrate := fun _ => None;
     calibrate_world := Scenario.corrected_frames;
     save_fault := fun _ _ => None;
     saved_image := fun _ => "SIMPLE  =                    T";
     save_partial := fun _ _ => None |}.

(** A disk on which no directory can be made. *)
Definition runtime_no_mkdir : Host :=
  {| JSON_parse := parse_table;
     NumberToString := NumberToString Scenario.runtime;
     StringToNumber := StringToNumber Scenario.runtime;
     eol := Scenario.line_feed;
     io_fault := fun c => match c with
                          | CreateDirectory _ => Some (Error "access denied")
                          | _ => None
                          end;
     integrate := fun _ _ => inr (Window 1);
     calibrate := fun _ => None;
     calibrate_world := Scenario.corrected_frames;
     save_fault := fun _ _ => None;
     saved_image := fun _ => "SIMPLE  =                    T";
     save_partial := fun _ _ => None |}.

Definition null_inputs : World :=
  Scenario.world_with [(inputFilePath, "null"); (paramFilePath, Scenario.stack_params)].
Definition string_inputs : World :=
  Scenario.world_with [(inputFilePath, Scenario.quoted "ab");
                       (paramFilePath, Scenario.stack_params)].
Definition empty_params : World :=
  Scenario.world_with [(inputFilePath, Scenario.two_inputs); (paramFilePath, "{}")].
Definition null_params : World :=
  Scenario.world_with [(inputFilePath, Scenario.two_inputs); (paramFilePath, "null")].
Definition one_frame_no_params : World :=
  Scenario.world_with [(inputFilePath, Scenario.one_input)].

(** A world without the working directory and without any file. *)
Definition bare : World :=
  {| files := ∅; directories := ∅; activeWindow := NullWindow |}.

End MoreRuns.

(** * Facts *)

(** ** Facts about strings *)

Section StringFacts.

Import JsString.

Lemma length_append (a b : string) :
String.length (a +:+ b) = (String.length a + String.length b)%nat.
Proof. induction a as [|c a IH]; simpl; [reflexivity | now rewrite IH]. Qed.

Lemma toLowerCase_length (s : string) :
String.length (toLowerCase s) = String.length s.
Proof. induction s as [|c s IH]; simpl; congruence. Qed.

Lemma toLowerCase_append (a b : string) :
toLowerCase (a +:+ b) = toLowerCase a +:+ toLowerCase b.
Proof. induction a as [|c a IH]; simpl; [reflexivity | now rewrite IH]. Qed.

Lemma substring_all (s : string) : String.substring 0 (String.length s) s = s.
Proof. induction s as [|c s IH]; simpl; [reflexivity | now rewrite IH]. Qed.

(** Skipping a prefix: the units after [a] in [a +:+ b] are those of [b]. *)
Lemma substring_skip (a b : string) (k : nat) :
String.substring (String.length a) k (a +:+ b) = String.substring 0 k b.
Proof. induction a as [|c a IH]; simpl; [reflexivity | exact IH]. Qed.

(** Taking a prefix: the first [length a] units of [a +:+ b] are [a]. *)
Lemma substring_take (a b : string) :
String.substring 0 (String.length a) (a +:+ b) = a.
Proof.
induction a as [|c a IH]; simpl.
- destruct b; reflexivity.
- now rewrite IH.
Qed.

Lemma endsWith_append (a t : string) : endsWith (a +:+ t) t = true.
Proof.
unfold endsWith. rewrite length_append.
replace (String.length t <=? String.length a + String.length t)%nat with true
  by (symmetry; apply Nat.leb_le; lia).
replace (String.length a + String.length t - String.length t)%nat
  with (String.length a) by lia.
rewrite substring_skip, substring_all. apply String.eqb_refl.
Qed.

Lemma slice0_append (a t : string) : slice0 (a +:+ t) (String.length t) = a.
Proof.
unfold slice0. rewrite length_append.
replace (String.length a + String.length t - String.length t)%nat
  with (String.length a) by lia.
apply substring_take.
Qed.

(** A string splits into what [slice0] keeps and what it drops. *)
Lemma slice0_split (s : string) (k : nat) :
(k <= String.length s)%nat ->
s = slice0 s k +:+ String.substring (String.length s - k) k s.
Proof.
unfold slice0. intros Hk.
remember (String.length s - k)%nat as n eqn:Hn.
assert (Hlen : String.length s = (n + k)%nat) by lia.
clear Hn Hk. revert s Hlen.
induction n as [|n IH]; intros s Hlen; simpl in *.
- subst k. rewrite substring_all. now destruct s.
- destruct s as [|c s]; simpl in *; [discriminate|].
  change (String c s = String c (String.substring 0 n s +:+ String.substring n k s)).
  f_equal. apply IH. lia.
Qed.

Lemma substring_length (s : string) (n k : nat) :
(n + k <= String.length s)%nat -> String.length (String.substring n k s) = k.
Proof.
revert n k. induction s as [|c s IH]; intros n k H; simpl in *.
- destruct n, k; simpl in *; try lia; reflexivity.
- destruct n as [|n].
  + destruct k as [|k]; simpl; [reflexivity|]. f_equal.
    apply (IH 0%nat k). simpl. lia.
  + apply IH. lia.
Qed.

Lemma toLowerCase_substring (s : string) (n k : nat) :
toLowerCase (String.substring n k s) = String.substring n k (toLowerCase s).
Proof.
revert n k. induction s as [|c s IH]; intros n k; simpl.
- destruct n, k; reflexivity.
- destruct n as [|n].
  + destruct k as [|k]; simpl; [reflexivity|]. now rewrite (IH 0%nat k).
  + apply IH.
Qed.

Lemma endsWith_inv (s t : string) :
endsWith s t = true ->
(String.length t <= String.length s)%nat /\
String.substring (String.length s - String.length t) (String.length t) s = t.
Proof.
unfold endsWith. destruct (String.length t <=? String.length s)%nat eqn:E;
  [|discriminate].
intros H. apply Nat.leb_le in E. split; [exact E|].
now apply String.eqb_eq.
Qed.

(** Whatever its case, a suffix that reads [.fits] is cut off, and only
    it: the stem stays as it is. *)
Lemma base_suffix (stem suffix : string) :
  toLowerCase suffix = ".fits" -> base (stem +:+ suffix) = stem.
Proof.
  intros Hs. unfold base.
  assert (Hlen : String.length suffix = 5%nat).
  { rewrite <- toLowerCase_length, Hs. reflexivity. }
  rewrite toLowerCase_append, Hs, endsWith_append.
  rewrite <- Hlen. apply slice0_append.
Qed.

Lemma base_other (p : string) :
  endsWith (toLowerCase p) ".fits" = false -> base p = p.
Proof. intros H. unfold base. now rewrite H. Qed.

(** When the test of line 75 succeeds the path does end in such a suffix. *)
Lemma endsWith_fits_split (p : string) :
  endsWith (toLowerCase p) ".fits" = true ->
  exists stem suffix, p = stem +:+ suffix /\ toLowerCase suffix = ".fits".
Proof.
  intros H. apply endsWith_inv in H. destruct H as [Hlen Hsub].
  rewrite toLowerCase_length in Hlen, Hsub. simpl in Hlen, Hsub.
  exists (slice0 p 5), (String.substring (String.length p - 5) 5 p). split.
  - now apply slice0_split.
  - now rewrite toLowerCase_substring.
Qed.

End StringFacts.


(** ** Running a script step by step *)

Lemma after_nil {A} (r : Run A) : after [] r = r.
Proof. now destruct r. Qed.

Lemma after_after {A} (e1 e2 : list event) (r : Run A) :
  after e1 (after e2 r) = after (e1 ++ e2) r.
Proof. unfold after; simpl. now rewrite app_assoc. Qed.

Lemma bind_step {A B} (m : M A) (k : A -> M B) (w : World) :
  (m ≫= k) w =
  match outcome (m w) with
  | Normal a => after (events (m w)) (k a (world (m w)))
  | Thrown e => {| outcome := Thrown e; world := world (m w); events := events (m w) |}
  | Exited n => {| outcome := Exited n; world := world (m w); events := events (m w) |}
  end.
Proof. reflexivity. Qed.

Lemma bind_Normal {A B} (m : M A) (k : A -> M B) (w w' : World) a evs :
  m w = {| outcome := Normal a; world := w'; events := evs |} ->
  (m ≫= k) w = after evs (k a w').
Proof. intros H. rewrite bind_step, H. reflexivity. Qed.

Lemma bind_Thrown {A B} (m : M A) (k : A -> M B) (w w' : World) e evs :
  m w = {| outcome := Thrown e; world := w'; events := evs |} ->
  (m ≫= k) w = {| outcome := Thrown e; world := w'; events := evs |}.
Proof. intros H. rewrite bind_step, H. reflexivity. Qed.

Lemma bind_Exited {A B} (m : M A) (k : A -> M B) (w w' : World) n evs :
  m w = {| outcome := Exited n; world := w'; events := evs |} ->
  (m ≫= k) w = {| outcome := Exited n; world := w'; events := evs |}.
Proof. intros H. rewrite bind_step, H. reflexivity. Qed.

(** One tactic runs a script as far as the hypotheses decide it. *)
Ltac run_script :=
  repeat (rewrite ?bind_step; simpl;
          rewrite ?after_nil, ?after_after; simpl).

(** One step: the first statement of a sequence ran as a hypothesis or a
    computation says. *)
Ltac step :=
  first [ erewrite bind_Normal; [| solve [eassumption | reflexivity] ]
        | erewrite bind_Thrown; [| solve [eassumption | reflexivity] ]
        | erewrite bind_Exited; [| solve [eassumption | reflexivity] ] ];
  simpl.

Section Steps.

Context (host : Host).

(** [readJson] changes nothing and shows nothing. *)
Lemma readJson_pure (path : string) (w : World) :
  readJson host path w =
  {| outcome := outcome (readJson host path w); world := w; events := [] |}.
Proof.
  unfold readJson, File_exists, File_readTextFile, parse.
  destruct (files w !! path) as [text|] eqn:Hf;
    destruct (io_fault host (ReadTextFile path)) eqn:Hio;
    repeat (run_script; rewrite ?Hf, ?Hio); try reflexivity.
  destruct (JSON_parse host text); reflexivity.
Qed.

(** What it takes for [readJson] to return a value. *)
Lemma readJson_Normal (path : string) (w : World) (j : json) :
  outcome (readJson host path w) = Normal j <->
  exists text, files w !! path = Some text /\
               io_fault host (ReadTextFile path) = None /\
               JSON_parse host text = inr j.
Proof.
  unfold readJson, File_exists, File_readTextFile, parse.
  destruct (files w !! path) as [text|] eqn:Hf;
    destruct (io_fault host (ReadTextFile path)) eqn:Hio;
    repeat (run_script; rewrite ?Hf, ?Hio);
    try (split; [discriminate | intros (t & ? & ? & ?); discriminate]).
  destruct (JSON_parse host text) eqn:Hp; simpl.
  - split; [discriminate | intros (t & Ht & _ & H); congruence].
  - split.
    + intros [= ->]. eauto.
    + intros (t & Ht & _ & H). congruence.
Qed.

Lemma readJson_missing (path : string) (w : World) :
  files w !! path = None ->
  readJson host path w =
  {| outcome := Thrown (Error ("Missing JSON file: " +:+ path)); world := w; events := [] |}.
Proof.
  intros Hf. unfold readJson, File_exists. run_script. rewrite Hf. reflexivity.
Qed.

(** [readJson] never calls [exit]. *)
Lemma readJson_no_exit (path : string) (w : World) (n : Z) :
  outcome (readJson host path w) <> Exited n.
Proof.
  unfold readJson, File_exists, File_readTextFile, parse.
  destruct (files w !! path) as [text|] eqn:Hf;
    destruct (io_fault host (ReadTextFile path)) eqn:Hio;
    repeat (run_script; rewrite ?Hf, ?Hio); try discriminate.
  destruct (JSON_parse host text); discriminate.
Qed.

Lemma readJson_throws (path : string) (w : World) (e : exn) :
  outcome (readJson host path w) = Thrown e ->
  readJson host path w = {| outcome := Thrown e; world := w; events := [] |}.
Proof. intros H. rewrite readJson_pure, H. reflexivity. Qed.

(** Text that does not parse: [readJson] throws what JSON.parse threw. *)
Lemma readJson_malformed (path text : string) (w : World) (e : exn) :
  files w !! path = Some text ->
  io_fault host (ReadTextFile path) = None ->
  JSON_parse host text = inl e ->
  outcome (readJson host path w) = Thrown e.
Proof.
  intros Hf Hio Hp. unfold readJson, File_exists, File_readTextFile, parse.
  repeat (run_script; rewrite ?Hf, ?Hio, ?Hp). reflexivity.
Qed.

Lemma readJson_returns (path : string) (w : World) (j : json) :
  outcome (readJson host path w) = Normal j ->
  readJson host path w = {| outcome := Normal j; world := w; events := [] |}.
Proof. intros H. rewrite readJson_pure, H. reflexivity. Qed.

End Steps.

(** ** The stacking scripts, case by case *)

#[local] Arguments readJson : simpl never.
#[local] Arguments tooFew : simpl never.
#[local] Arguments signal : simpl never.
#[local] Arguments integrate_and_save : simpl never.
#[local] Arguments finalPath : simpl never.

Section Stacking.

Context (host : Host).

Lemma tooFew_array (l : list json) (least : Z) (w : World) :
  tooFew host (JArr l) least w = ret (Z.of_nat (length l) <? least) w.
Proof. reflexivity. Qed.

Lemma count_test_array (l : list json) (least : Z) :
  count_test host (JArr l) least = Some (Z.of_nat (length l) <? least).
Proof. reflexivity. Qed.

(** In general the test is the disjunction of line 27; reading [length]
    never throws there, the comparison may. *)
Lemma tooFew_run (j : json) (least : Z) (w : World) :
  tooFew host j least w =
  match count_test host j least with
  | Some few => ret few w
  | None => throw (TypeError "cannot convert object to primitive value") w
  end.
Proof.
  unfold tooFew, count_test.
  destruct j as [|b|n|s|l|m]; simpl; try reflexivity.
  - destruct b; reflexivity.
  - destruct (n =? 0); reflexivity.
  - destruct (String.eqb s ""); reflexivity.
  - rewrite bind_step. simpl. destruct (lessThan host (own m "length") least); reflexivity.
Qed.

Lemma tooFew_counts (j : json) (least : Z) (few : bool) (w : World) :
  count_test host j least = Some few ->
  tooFew host j least w = {| outcome := Normal few; world := w; events := [] |}.
Proof. intros H. rewrite tooFew_run, H. reflexivity. Qed.

Lemma tooFew_throws (j : json) (least : Z) (w : World) :
  count_test host j least = None ->
  tooFew host j least w =
  {| outcome := Thrown (TypeError "cannot convert object to primitive value");
     world := w; events := [] |}.
Proof. intros H. rewrite tooFew_run, H. reflexivity. Qed.

(** Too few inputs: both files were read, the critical line is printed
    and the script exits with status 1. *)
Lemma integrate_and_save_few (w : World) (inputFiles params : json) :
  loads host w inputFilePath inputFiles ->
  loads host w paramFilePath params ->
  count_test host inputFiles 2 = Some true ->
  integrate_and_save host w =
  {| outcome := Exited 1; world := w;
     events := [banner; Criticalln "Error: Need at least two input files."] |}.
Proof.
  intros Hi Hp Hfew. unfold integrate_and_save.
  apply readJson_returns in Hi, Hp.
  do 3 step. rewrite (bind_Normal _ _ _ _ _ _ (tooFew_counts _ _ _ _ Hfew)).
  repeat step. reflexivity.
Qed.

Lemma integrate_and_save_inputs_missing (w : World) :
  files w !! inputFilePath = None ->
  integrate_and_save host w =
  {| outcome := Thrown (Error ("Missing JSON file: " +:+ inputFilePath)); world := w;
     events := [banner] |}.
Proof.
  intros Hf. unfold integrate_and_save.
  pose proof (readJson_missing host _ _ Hf) as Hi.
  repeat step. reflexivity.
Qed.

(** The parameter file is read before the inputs are counted. *)
Lemma integrate_and_save_params_missing (w : World) (inputFiles : json) :
  loads host w inputFilePath inputFiles ->
  files w !! paramFilePath = None ->
  integrate_and_save host w =
  {| outcome := Thrown (Error ("Missing JSON file: " +:+ paramFilePath)); world := w;
     events := [banner] |}.
Proof.
  intros Hi Hf. unfold integrate_and_save.
  apply readJson_returns in Hi.
  pose proof (readJson_missing host _ _ Hf) as Hp.
  repeat step. reflexivity.
Qed.

(** A configuration file that cannot be read or parsed ends the script
    with what [readJson] threw, before anything else happens. *)
Lemma integrate_and_save_inputs_thrown (w : World) (e : exn) :
  outcome (readJson host inputFilePath w) = Thrown e ->
  integrate_and_save host w = {| outcome := Thrown e; world := w; events := [banner] |}.
Proof.
  intros Hi. unfold integrate_and_save. apply readJson_throws in Hi.
  repeat step. reflexivity.
Qed.

Lemma integrate_and_save_params_thrown (w : World) (inputFiles : json) (e : exn) :
  loads host w inputFilePath inputFiles ->
  outcome (readJson host paramFilePath w) = Thrown e ->
  integrate_and_save host w = {| outcome := Thrown e; world := w; events := [banner] |}.
Proof.
  intros Hi Hp. unfold integrate_and_save.
  apply readJson_returns in Hi. apply readJson_throws in Hp.
  repeat step. reflexivity.
Qed.

Lemma executeGlobal_integration_run (P : ImageIntegration) (w : World) :
  executeGlobal_integration host P w =
  match integrate host P (activeWindow w) with
  | inl e => {| outcome := Thrown e; world := w; events := [ExecuteIntegration P] |}
  | inr win =>
      {| outcome := Normal ();
         world := {| files := files w; directories := directories w; activeWindow := win |};
         events := [ExecuteIntegration P] |}
  end.
Proof. reflexivity. Qed.

(** With two inputs or more and parameters that are not null, the
    script reaches the engine, and the rest of the run is decided by what
    the engine and [saveAs] do. *)
Lemma integrate_and_save_loaded (w : World) (l : list json) (params : json) :
  loads host w inputFilePath (JArr l) ->
  (2 <= length l)%nat ->
  loads host w paramFilePath params ->
  params <> JNull ->
  integrate_and_save host w =
  let P := integration_instance (frames_of l) in
  match integrate host P (activeWindow w) with
  | inl e => {| outcome := Thrown e; world := w; events := [banner; running; ExecuteIntegration P] |}
  | inr win =>
      let w' := {| files := files w; directories := directories w; activeWindow := win |} in
      match win with
      | NullWindow =>
          {| outcome := Thrown (Error "No active image window after ImageIntegration — integration likely failed.");
             world := w'; events := [banner; running; ExecuteIntegration P] |}
      | Window id =>
          match property params "output_path" with
          | Js (JStr outputPath) =>
              {| outcome := match save_fault host id (finalPath outputPath) with
                            | Some e => Thrown e
                            | None => Normal ()
                            end;
                 world := {| files := saved_files host id (finalPath outputPath) (files w);
                             directories := directories w;
                             activeWindow := win |};
                 events := [banner; running; ExecuteIntegration P;
                            Writeln ("Saving integrated image to: " +:+ finalPath outputPath);
                            SaveAs id (finalPath outputPath) false false false false] |}
          | _ =>
              {| outcome := Thrown (TypeError "toLowerCase is not a function");
                 world := w'; events := [banner; running; ExecuteIntegration P] |}
          end
      end
  end.
Proof.
  intros Hi Hlen Hp Hnull. unfold integrate_and_save.
  apply readJson_returns in Hi, Hp.
  do 3 step. rewrite (bind_Normal _ _ _ _ _ _ (tooFew_array _ _ _)).
  replace (Z.of_nat (length l) <? 2) with false by (symmetry; apply Z.ltb_ge; lia).
  step.
  assert (Hm : member params "output_path" w =
               {| outcome := Normal (property params "output_path"); world := w; events := [] |})
    by (destruct params; try reflexivity; congruence).
  do 3 step. fold (frames_of l).
  pose proof (executeGlobal_integration_run (integration_instance (frames_of l)) w) as Hrun.
  simpl.
  destruct (integrate host (integration_instance (frames_of l)) (activeWindow w)) as [e|win].
  - step. reflexivity.
  - do 2 step. destruct win as [|id]; simpl.
    + reflexivity.
    + destruct (property params "output_path") as [|[| | |op| |]]; reflexivity.
Qed.

End Stacking.

(** ** The sentinel block *)

Section Signal.

Context (host : Host).

(** Whatever the file operations do, the block returns normally and
    prints one line: the handler catches every thrown value. *)
Lemma signal_returns (fileName : string) (w : World) :
  outcome (signal host fileName w) = Normal () /\
  exists text, events (signal host fileName w) = [Writeln text].
Proof.
  unfold signal, try_catch, File_directoryExists, File_createDirectory,
    File_createForWriting, File_outTextLn, File_close.
  rewrite !bind_step. simpl.
  destruct (io_fault host (DirectoryExists "C:/Temp/PixStack")); simpl; [eauto|].
  destruct (bool_decide ("C:/Temp/PixStack" ∈ directories w)); simpl;
    [| destruct (io_fault host (CreateDirectory "C:/Temp/PixStack")); simpl; [eauto|] ];
    (destruct (io_fault host (CreateForWriting ("C:/Temp/PixStack" +:+ fileName)));
       simpl; [eauto|]);
    (destruct (io_fault host (OutTextLn ("C:/Temp/PixStack" +:+ fileName) "done"));
       simpl; [eauto|]);
    (destruct (io_fault host (Close ("C:/Temp/PixStack" +:+ fileName)));
       simpl; eauto).
Qed.

(** Whatever the file operations do, the block leaves every file but
    its own as it was. *)
Lemma signal_other_files (fileName path : string) (w : World) :
  path <> "C:/Temp/PixStack" +:+ fileName ->
  files (world (signal host fileName w)) !! path = files w !! path.
Proof.
  intros Hpath.
  unfold signal, try_catch, File_directoryExists, File_createDirectory,
    File_createForWriting, File_outTextLn, File_close.
  rewrite !bind_step. simpl.
  destruct (io_fault host (DirectoryExists "C:/Temp/PixStack")); simpl; [auto|].
  destruct (bool_decide ("C:/Temp/PixStack" ∈ directories w)); simpl;
    [| destruct (io_fault host (CreateDirectory "C:/Temp/PixStack")); simpl; [auto|] ];
    (destruct (io_fault host (CreateForWriting ("C:/Temp/PixStack" +:+ fileName)));
       simpl; [auto|]);
    (destruct (io_fault host (OutTextLn ("C:/Temp/PixStack" +:+ fileName) "done"));
       simpl; [rewrite lookup_insert_ne by congruence; auto|]);
    (destruct (io_fault host (Close ("C:/Temp/PixStack" +:+ fileName))); simpl;
       rewrite lookup_alter_ne, lookup_insert_ne by congruence; auto).
Qed.

(** Then the sentinel holds one line, [done]. *)
Lemma signal_written (fileName : string) (w : World) :
  io_ok host fileName ->
  files (world (signal host fileName w)) !! ("C:/Temp/PixStack" +:+ fileName)
    = Some ("done" +:+ eol host) /\
  events (signal host fileName w) =
    [Writeln ("Signal file created successfully: " +:+ "C:/Temp/PixStack" +:+ fileName)].
Proof.
  intros (Hd & Hc & Hw & Ho & Hcl).
  unfold signal, try_catch, File_directoryExists, File_createDirectory,
    File_createForWriting, File_outTextLn, File_close.
  rewrite !bind_step. simpl. rewrite Hd. simpl.
  destruct (bool_decide ("C:/Temp/PixStack" ∈ directories w)); simpl;
    rewrite ?Hc; simpl; rewrite Hw; simpl; rewrite Ho; simpl; rewrite Hcl; simpl;
    (split; [|reflexivity]);
    rewrite lookup_alter_eq, lookup_insert_eq; reflexivity.
Qed.

(** A failing [createForWriting] is caught: the line of the handler is
    printed and no file is touched. *)
Lemma signal_caught (fileName : string) (w : World) (e : exn) :
  io_fault host (DirectoryExists "C:/Temp/PixStack") = None ->
  io_fault host (CreateDirectory "C:/Temp/PixStack") = None ->
  io_fault host (CreateForWriting ("C:/Temp/PixStack" +:+ fileName)) = Some e ->
  outcome (signal host fileName w) = Normal () /\
  files (world (signal host fileName w)) = files w /\
  events (signal host fileName w) = [Writeln ("Error creating signal file: " +:+ message e)].
Proof.
  intros Hd Hc Hw.
  unfold signal, try_catch, File_directoryExists, File_createDirectory,
    File_createForWriting.
  rewrite !bind_step. simpl. rewrite Hd. simpl.
  destruct (bool_decide ("C:/Temp/PixStack" ∈ directories w)); simpl;
    rewrite ?Hc; simpl; rewrite Hw; simpl; auto.
Qed.

End Signal.

(** ** The two stacking scripts seen through their common part *)

Section Views.

Context (host : Host).

Lemma engine_calls_app (a b : list event) :
  engine_calls (a ++ b) = engine_calls a ++ engine_calls b.
Proof. apply omap_app. Qed.

Lemma save_calls_app (a b : list event) :
  save_calls (a ++ b) = save_calls a ++ save_calls b.
Proof. apply omap_app. Qed.

Lemma critical_lines_app (a b : list event) :
  critical_lines (a ++ b) = critical_lines a ++ critical_lines b.
Proof. apply omap_app. Qed.

(** The sentinel block adds one console line to a run that came through,
    and nothing to a run that threw or exited. *)
Lemma StackSignal_run (w : World) :
  outcome (StackSignal.main host w) = outcome (integrate_and_save host w) /\
  exists tail,
    events (StackSignal.main host w) = events (integrate_and_save host w) ++ tail /\
    (tail = [] \/ exists text, tail = [Writeln text]).
Proof.
  unfold StackSignal.main. rewrite bind_step.
  destruct (outcome (integrate_and_save host w)) as [[]|e|n] eqn:Ho;
    unfold after; cbn [outcome events world].
  - destruct (signal_returns host "/basic_stack_complete.tmp"
                (world (integrate_and_save host w))) as [Hn [text Ht]].
    split; [exact Hn|]. exists [Writeln text]. rewrite Ht. eauto.
  - split; [reflexivity|]. exists []. rewrite app_nil_r. auto.
  - split; [reflexivity|]. exists []. rewrite app_nil_r. auto.
Qed.

Lemma StackPlain_run (w : World) :
  outcome (StackPlain.main host w) = outcome (integrate_and_save host w) /\
  exists tail,
    events (StackPlain.main host w) = events (integrate_and_save host w) ++ tail /\
    (tail = [] \/ exists text, tail = [Writeln text]).
Proof.
  unfold StackPlain.main. rewrite bind_step.
  destruct (outcome (integrate_and_save host w)) as [[]|e|n] eqn:Ho;
    unfold after; cbn [outcome events world].
  - split; [reflexivity|]. eauto.
  - split; [reflexivity|]. exists []. rewrite app_nil_r. auto.
  - split; [reflexivity|]. exists []. rewrite app_nil_r. auto.
Qed.

(** So engine calls, save calls and critical lines are those of the
    common part. *)
Lemma tail_silent (evs tail : list event) :
  tail = [] \/ (exists text, tail = [Writeln text]) ->
  engine_calls (evs ++ tail) = engine_calls evs /\
  save_calls (evs ++ tail) = save_calls evs /\
  critical_lines (evs ++ tail) = critical_lines evs.
Proof.
  rewrite engine_calls_app, save_calls_app, critical_lines_app.
  intros [->|[text ->]]; simpl; rewrite !app_nil_r; auto.
Qed.

Lemma StackSignal_calls (w : World) :
  engine_calls (events (StackSignal.main host w)) = engine_calls (events (integrate_and_save host w)) /\
  save_calls (events (StackSignal.main host w)) = save_calls (events (integrate_and_save host w)) /\
  critical_lines (events (StackSignal.main host w)) = critical_lines (events (integrate_and_save host w)).
Proof.
  destruct (StackSignal_run w) as [_ (tail & -> & Ht)]. now apply tail_silent.
Qed.

Lemma StackPlain_calls (w : World) :
  engine_calls (events (StackPlain.main host w)) = engine_calls (events (integrate_and_save host w)) /\
  save_calls (events (StackPlain.main host w)) = save_calls (events (integrate_and_save host w)) /\
  critical_lines (events (StackPlain.main host w)) = critical_lines (events (integrate_and_save host w)).
Proof.
  destruct (StackPlain_run w) as [_ (tail & -> & Ht)]. now apply tail_silent.
Qed.

End Views.

(** ** The calibration script, case by case *)

Section CalibrationRuns.

Context (host : Host).

(** Too few inputs: the parameter file is not read at all. *)
Lemma calibration_few (w : World) (inputFiles : json) :
  loads host w inputFilePath inputFiles ->
  count_test host inputFiles 1 = Some true ->
  Calibration.main host w =
  {| outcome := Exited 1; world := w;
     events := [calibration_banner; Writeln "Error: No input files found.";
                Criticalln "Error: Need at least one input file."] |}.
Proof.
  intros Hi Hfew. unfold Calibration.main.
  apply readJson_returns in Hi.
  do 2 step. rewrite (bind_Normal _ _ _ _ _ _ (tooFew_counts _ _ _ _ _ Hfew)).
  repeat step. reflexivity.
Qed.

Lemma calibration_inputs_thrown (w : World) (e : exn) :
  outcome (readJson host inputFilePath w) = Thrown e ->
  Calibration.main host w =
  {| outcome := Thrown e; world := w; events := [calibration_banner] |}.
Proof.
  intros Hi. unfold Calibration.main. apply readJson_throws in Hi.
  repeat step. reflexivity.
Qed.

(** ["text" + v] in front of the rest of the script. *)
Lemma bind_plus {B} (text : string) (v : jsval) (k : string -> M B) (w : World) :
  (plus host text v ≫= k) w =
  match ToString host v with
  | Some s => k (text +:+ s) w
  | None =>
      {| outcome := Thrown (TypeError "cannot convert object to primitive value");
         world := w; events := [] |}
  end.
Proof.
  rewrite bind_step. unfold plus.
  destruct (ToString host v); simpl; [apply after_nil | reflexivity].
Qed.

Lemma executeGlobal_calibration_run (P : ImageCalibration) (w : World) :
  executeGlobal_calibration host P w =
  match calibrate host P with
  | Some e =>
      {| outcome := Thrown e; world := calibrate_world host P w;
         events := [ExecuteCalibration P] |}
  | None =>
      {| outcome := Normal (); world := calibrate_world host P w;
         events := [ExecuteCalibration P] |}
  end.
Proof. reflexivity. Qed.

(** A first entry that does not convert to a string: the second line
    throws, before the parameter file is read. *)
Lemma calibration_first_unprintable (w : World) (l : list json) :
  loads host w inputFilePath (JArr l) ->
  (1 <= length l)%nat ->
  ToString host (property (JArr l) "0") = None ->
  Calibration.main host w =
  {| outcome := Thrown (TypeError "cannot convert object to primitive value"); world := w;
     events := [calibration_banner;
                Writeln ("Input files loaded: " +:+ NumberToString host (Z.of_nat (length l)))] |}.
Proof.
  intros Hi Hlen Hfirst. unfold Calibration.main.
  apply readJson_returns in Hi.
  do 2 step. rewrite (bind_Normal _ _ _ _ _ _ (tooFew_array _ _ _ _)).
  replace (Z.of_nat (length l) <? 1) with false by (symmetry; apply Z.ltb_ge; lia).
  do 4 step. erewrite (bind_Normal _ _ _ _ (property (JArr l) "0")) by reflexivity.
  rewrite bind_plus, Hfirst. reflexivity.
Qed.

(** The parameter file is read after the inputs were counted and two
    lines about them printed. *)
Lemma calibration_params_thrown (w : World) (l : list json) (first : string) (e : exn) :
  loads host w inputFilePath (JArr l) ->
  (1 <= length l)%nat ->
  ToString host (property (JArr l) "0") = Some first ->
  outcome (readJson host paramFilePath w) = Thrown e ->
  Calibration.main host w =
  {| outcome := Thrown e; world := w; events := input_lines host l first |}.
Proof.
  intros Hi Hlen Hfirst Hp. unfold Calibration.main.
  apply readJson_returns in Hi. apply readJson_throws in Hp.
  do 2 step. rewrite (bind_Normal _ _ _ _ _ _ (tooFew_array _ _ _ _)).
  replace (Z.of_nat (length l) <? 1) with false by (symmetry; apply Z.ltb_ge; lia).
  do 4 step. erewrite (bind_Normal _ _ _ _ (property (JArr l) "0")) by reflexivity.
  rewrite bind_plus, Hfirst. repeat step. reflexivity.
Qed.

(** With one input or more and parameters that are not null the script
    comes to its four lines and, when they can be printed, to the
    engine, with whatever the four parameter keys gave. *)
Lemma calibration_loaded (w : World) (l : list json) (first : string) (params : json) :
  loads host w inputFilePath (JArr l) ->
  (1 <= length l)%nat ->
  ToString host (property (JArr l) "0") = Some first ->
  loads host w paramFilePath params ->
  params <> JNull ->
  let P := calibration_instance (map (fun f => (true, f)) l)
             (property params "master_dark") (property params "master_flat")
             (property params "output_dir") (property params "prefix") in
  let counted :=
    input_lines host l first ++
    [Writeln (NumberToString host (Z.of_nat (length l)) +:+ " target frames loaded.")] in
  let unprintable := Thrown (TypeError "cannot convert object to primitive value") in
  Calibration.main host w =
  match ToString host (property params "master_flat") with
  | None => {| outcome := unprintable; world := w; events := counted |}
  | Some flat =>
      match ToString host (property params "master_dark") with
      | None =>
          {| outcome := unprintable; world := w;
             events := counted ++ [Writeln ("Master flat: " +:+ flat)] |}
      | Some dark =>
          let before :=
            counted ++
            [Writeln ("Master flat: " +:+ flat); Writeln ("Master dark: " +:+ dark);
             Writeln ">> Running ImageCalibration..."; ExecuteCalibration P] in
          match calibrate host P with
          | Some e =>
              {| outcome := Thrown e; world := calibrate_world host P w; events := before |}
          | None =>
              match ToString host (property params "output_dir") with
              | Some dir =>
                  {| outcome := Normal (); world := calibrate_world host P w;
                     events := before ++
                       [Writeln ">> ImageCalibration completed successfully.";
                        Writeln ("Integrated images saved to: " +:+ dir)] |}
              | None =>
                  {| outcome := unprintable; world := calibrate_world host P w;
                     events := before ++
                       [Writeln ">> ImageCalibration completed successfully."] |}
              end
          end
      end
  end.
Proof.
  intros Hi Hlen Hfirst Hp Hnull P counted unprintable. unfold Calibration.main.
  apply readJson_returns in Hi, Hp.
  do 2 step. rewrite (bind_Normal _ _ _ _ _ _ (tooFew_array _ _ _ _)).
  replace (Z.of_nat (length l) <? 1) with false by (symmetry; apply Z.ltb_ge; lia).
  assert (Hm : forall key, member params key w =
               {| outcome := Normal (property params key); world := w; events := [] |})
    by (intros key; destruct params; try reflexivity; congruence).
  pose proof (Hm "master_flat") as Hm1. pose proof (Hm "master_dark") as Hm2.
  pose proof (Hm "output_dir") as Hm3. pose proof (Hm "prefix") as Hm4.
  do 4 step. erewrite (bind_Normal _ _ _ _ (property (JArr l) "0")) by reflexivity.
  rewrite bind_plus, Hfirst.
  do 8 step. rewrite length_map.
  rewrite bind_plus.
  destruct (ToString host (property params "master_flat")) as [flat|]; [|reflexivity].
  step. rewrite bind_plus.
  destruct (ToString host (property params "master_dark")) as [dark|]; [|reflexivity].
  do 2 step. fold P.
  pose proof (executeGlobal_calibration_run P w) as Hrun.
  destruct (calibrate host P); [step; reflexivity|].
  do 2 step. rewrite bind_plus.
  destruct (ToString host (property params "output_dir")) as [dir|]; reflexivity.
Qed.

End CalibrationRuns.

(** * The claims of the specification *)

(** ** The output path *)

(** C5. Resolving the output path twice gives the same path as resolving
    it once: [finalPath] is idempotent on every base path. *)
Theorem finalPath_idempotent (p : string) : finalPath (finalPath p) = finalPath p.
Proof.
  unfold finalPath.
  rewrite (base_suffix (base p) ".fits"); reflexivity.
Qed.

(** C6. A suffix that reads [.fits] in any case is cut off once, whatever
    the stem is (also a stem that itself ends in [.fits]), and [.fits] is
    put in its place; a path without such a suffix gets [.fits] added and
    loses nothing.  The two paths of the specification resolve as it
    says. *)
Theorem finalPath_strips_once (p : string) :
  (forall stem suffix,
      p = stem +:+ suffix -> JsString.toLowerCase suffix = ".fits" ->
      finalPath p = stem +:+ ".fits") /\
  (JsString.endsWith (JsString.toLowerCase p) ".fits" = true ->
      exists stem suffix,
        p = stem +:+ suffix /\ JsString.toLowerCase suffix = ".fits") /\
  (JsString.endsWith (JsString.toLowerCase p) ".fits" = false ->
      finalPath p = p +:+ ".fits") /\
  finalPath "/x/img.FITS" = "/x/img.fits" /\
  finalPath "/x/img" = "/x/img.fits" /\
  finalPath "/x/img.fits.FITS" = "/x/img.fits.fits".
Proof.
  split; [|split; [|split]].
  - intros stem suffix -> Hs. unfold finalPath. now rewrite base_suffix.
  - apply endsWith_fits_split.
  - intros H. unfold finalPath. now rewrite base_other.
  - repeat split; reflexivity.
Qed.

(** ** Loading a configuration file *)

(** C8. When no file exists at the path, [readJson] throws the error
    [Missing JSON file: ] followed by the path it was given; it returns no
    value, changes nothing and prints nothing. *)
Theorem readJson_signals_missing_file (host : Host) (w : World) (path : string) :
  files w !! path = None ->
  outcome (File_exists path w) = Normal false /\
  outcome (readJson host path w) = Thrown (Error ("Missing JSON file: " +:+ path)) /\
  (forall j, outcome (readJson host path w) <> Normal j) /\
  world (readJson host path w) = w /\
  events (readJson host path w) = [].
Proof.
  intros Hf. rewrite (readJson_missing host path w Hf). simpl.
  repeat split; try discriminate.
  unfold File_exists. simpl. rewrite Hf. reflexivity.
Qed.

Lemma readJson_signals_missing_file_witness :
  files Scenario.empty_disk !! "/missing/input_files.json" = None /\
  outcome (readJson Scenario.runtime "/missing/input_files.json" Scenario.empty_disk)
    = Thrown (Error "Missing JSON file: /missing/input_files.json").
Proof.
  split; [reflexivity|].
  apply (readJson_signals_missing_file Scenario.runtime Scenario.empty_disk
           "/missing/input_files.json"). reflexivity.
Defined.

(** ** The stacking scripts *)

Section StackingClaims.

Context (host : Host) (w : World).

Lemma stacking_main_calls (main : Host -> M unit) :
  In main stacking_mains ->
  outcome (main host w) = outcome (integrate_and_save host w) /\
  engine_calls (events (main host w)) = engine_calls (events (integrate_and_save host w)) /\
  save_calls (events (main host w)) = save_calls (events (integrate_and_save host w)) /\
  critical_lines (events (main host w)) = critical_lines (events (integrate_and_save host w)).
Proof.
  intros [<-|[<-|[]]].
  - split; [apply StackSignal_run | apply StackSignal_calls].
  - split; [apply StackPlain_run | apply StackPlain_calls].
Qed.

(** C1. With a configuration of two input files or more and parameters
    that were read, and an engine call that returns, either version of
    the stacking script calls the engine exactly once.  It then looks at
    the active window.  When there is one, the script (given a string
    under [output_path], as a valid configuration has) calls [saveAs]
    exactly once, after the engine call.  When there is none it calls
    [saveAs] not at all and ends by throwing the error
    [No active image window ...]. *)
Theorem engine_once_then_one_save (l : list json) (params : json)
    (win : ImageWindow) (main : Host -> M unit) :
  loads host w inputFilePath (JArr l) ->
  (2 <= length l)%nat ->
  loads host w paramFilePath params ->
  params <> JNull ->
  integrate host (integration_instance (frames_of l)) (activeWindow w) = inr win ->
  In main stacking_mains ->
  engine_calls (events (main host w)) = [integration_instance (frames_of l)] /\
  match win with
  | Window id =>
      forall outputPath, property params "output_path" = Js (JStr outputPath) ->
        save_calls (events (main host w)) =
          [(id, finalPath outputPath, (false, false, false, false))] /\
        events (integrate_and_save host w) =
          [banner; running; ExecuteIntegration (integration_instance (frames_of l));
           Writeln ("Saving integrated image to: " +:+ finalPath outputPath);
           SaveAs id (finalPath outputPath) false false false false]
  | NullWindow =>
      save_calls (events (main host w)) = [] /\
      outcome (main host w) =
        Thrown (Error "No active image window after ImageIntegration — integration likely failed.")
  end.
Proof.
  intros Hi Hlen Hp Hnull Heng Hmain.
  destruct (stacking_main_calls main Hmain) as (Ho & He & Hs & _).
  rewrite Ho, He, Hs.
  rewrite (integrate_and_save_loaded host w l params Hi Hlen Hp Hnull).
  cbv zeta. rewrite Heng.
  destruct win as [|id].
  - simpl. auto.
  - split.
    + destruct (property params "output_path") as [|[| | |op| |]]; reflexivity.
    + intros outputPath ->. simpl. auto.
Qed.

(** C9. Either version of the stacking script hands the engine one frame
    descriptor per input file, in the order of the input files, each with
    the enabled flag set and two empty strings for the drizzle and the
    local-normalization path.  For the input files [a.fits], [b.fits] and
    the output path [C:/out/stack] the engine is called once with these
    two descriptors, and the image is saved as [C:/out/stack.fits]. *)
Theorem frames_follow_input_files (l : list json) (params : json) (main : Host -> M unit) :
  loads host w inputFilePath (JArr l) ->
  (2 <= length l)%nat ->
  loads host w paramFilePath params ->
  params <> JNull ->
  In main stacking_mains ->
  exists P,
    engine_calls (events (main host w)) = [P] /\
    length (images P) = length l /\
    (forall (i : nat) (f : json),
        l !! i = Some f -> images P !! i = Some (true, f, EmptyString, EmptyString)) /\
    (l = [JStr "a.fits"; JStr "b.fits"] ->
     property params "output_path" = Js (JStr "C:/out/stack") ->
     images P = [(true, JStr "a.fits", EmptyString, EmptyString);
                 (true, JStr "b.fits", EmptyString, EmptyString)] /\
     forall id, integrate host P (activeWindow w) = inr (Window id) ->
       save_calls (events (main host w)) =
         [(id, "C:/out/stack.fits", (false, false, false, false))]).
Proof.
  intros Hi Hlen Hp Hnull Hmain.
  destruct (stacking_main_calls main Hmain) as (_ & He & Hs & _).
  exists (integration_instance (frames_of l)).
  rewrite He, Hs, (integrate_and_save_loaded host w l params Hi Hlen Hp Hnull).
  cbv zeta. split; [|split; [|split]].
  - destruct (integrate host _ (activeWindow w)) as [e|[|id]]; try reflexivity.
    destruct (property params "output_path") as [|[| | |op| |]]; reflexivity.
  - simpl. unfold frames_of. apply length_map.
  - intros i f Hf. simpl. unfold frames_of. rewrite list_lookup_fmap, Hf. reflexivity.
  - intros -> Hout. split; [reflexivity|].
    intros id Heng. rewrite Heng, Hout. reflexivity.
Qed.

(** C10 (stacking half and calibration half).  The stacking scripts read
    both configuration files before they count the inputs: when
    [params.json] is missing the engine is never called, and whenever
    [input_files.json] was read, whatever it holds and however few
    entries, the run ends by throwing the missing-file error for
    [params.json].  The calibration script counts first: with no inputs
    and no [params.json] it reports that it needs at least one input file
    and exits with status 1. *)
Theorem params_read_before_count_in_stacking_only :
  files w !! paramFilePath = None ->
  (forall main, In main stacking_mains ->
     engine_calls (events (main host w)) = [] /\
     (exists e, outcome (main host w) = Thrown e) /\
     (forall inputFiles, loads host w inputFilePath inputFiles ->
        outcome (main host w) = Thrown (Error ("Missing JSON file: " +:+ paramFilePath)) /\
        critical_lines (events (main host w)) = [])) /\
  (loads host w inputFilePath (JArr []) ->
     outcome (Calibration.main host w) = Exited 1 /\
     calibration_calls (events (Calibration.main host w)) = [] /\
     critical_lines (events (Calibration.main host w)) =
       ["Error: Need at least one input file."]).
Proof.
  intros Hf. split.
  - intros main Hmain.
    destruct (stacking_main_calls main Hmain) as (Ho & He & _ & Hc).
    rewrite Ho, He, Hc.
    assert (Hloaded : forall inputFiles, loads host w inputFilePath inputFiles ->
              integrate_and_save host w =
              {| outcome := Thrown (Error ("Missing JSON file: " +:+ paramFilePath));
                 world := w; events := [banner] |})
      by (intros j Hj; now apply integrate_and_save_params_missing with j).
    split; [|split].
    + destruct (outcome (readJson host inputFilePath w)) as [j|e|n] eqn:Hj.
      * now rewrite (Hloaded j Hj).
      * now rewrite (integrate_and_save_inputs_thrown host w e Hj).
      * now apply readJson_no_exit in Hj.
    + destruct (outcome (readJson host inputFilePath w)) as [j|e|n] eqn:Hj.
      * rewrite (Hloaded j Hj). eauto.
      * rewrite (integrate_and_save_inputs_thrown host w e Hj). eauto.
      * now apply readJson_no_exit in Hj.
    + intros j Hj. now rewrite (Hloaded j Hj).
  - intros Hi. now rewrite (calibration_few host w (JArr []) Hi eq_refl).
Qed.

(** C3. With fewer than two input files, either version of the stacking
    script (both configuration files having been read) calls the engine
    not at all, prints the critical line that it needs at least two
    input files, and exits with status 1.  With fewer than one input
    file the calibration script does the same with its own line. *)
Theorem too_few_inputs_exit_with_1 (l : list json) :
  loads host w inputFilePath (JArr l) ->
  (forall params main,
     (length l < 2)%nat -> loads host w paramFilePath params -> In main stacking_mains ->
     outcome (main host w) = Exited 1 /\
     engine_calls (events (main host w)) = [] /\
     save_calls (events (main host w)) = [] /\
     critical_lines (events (main host w)) = ["Error: Need at least two input files."]) /\
  ((length l < 1)%nat ->
     outcome (Calibration.main host w) = Exited 1 /\
     calibration_calls (events (Calibration.main host w)) = [] /\
     critical_lines (events (Calibration.main host w)) =
       ["Error: Need at least one input file."]).
Proof.
  intros Hi. split.
  - intros params main Hlen Hp Hmain.
    destruct (stacking_main_calls main Hmain) as (Ho & He & Hs & Hc).
    rewrite Ho, He, Hs, Hc.
    rewrite (integrate_and_save_few host w (JArr l) params Hi Hp); [now simpl|].
    rewrite count_test_array. f_equal. apply Z.ltb_lt. lia.
  - intros Hlen. rewrite (calibration_few host w (JArr l) Hi); [now simpl|].
    rewrite count_test_array. f_equal. apply Z.ltb_lt. lia.
Qed.

(** A run that saved the image: what the common part leaves behind. *)
Lemma integrate_and_save_saved (l : list json) (params : json) (outputPath : string) (id : nat) :
  loads host w inputFilePath (JArr l) ->
  (2 <= length l)%nat ->
  loads host w paramFilePath params ->
  property params "output_path" = Js (JStr outputPath) ->
  integrate host (integration_instance (frames_of l)) (activeWindow w) = inr (Window id) ->
  save_fault host id (finalPath outputPath) = None ->
  integrate_and_save host w =
  {| outcome := Normal ();
     world := {| files := <[ finalPath outputPath := saved_image host id ]> (files w);
                 directories := directories w; activeWindow := Window id |};
     events := [banner; running; ExecuteIntegration (integration_instance (frames_of l));
                Writeln ("Saving integrated image to: " +:+ finalPath outputPath);
                SaveAs id (finalPath outputPath) false false false false] |}.
Proof.
  intros Hi Hlen Hp Hout Heng Hsave.
  assert (Hnull : params <> JNull) by (intros ->; discriminate).
  rewrite (integrate_and_save_loaded host w l params Hi Hlen Hp Hnull).
  cbv zeta. rewrite Heng, Hout. unfold saved_files. rewrite Hsave. reflexivity.
Qed.

(** The image is never saved under the name of the sentinel: a saved
    path ends in [.fits]. *)
Lemma finalPath_is_no_sentinel (outputPath : string) :
  finalPath outputPath <> "C:/Temp/PixStack/basic_stack_complete.tmp".
Proof.
  intros Heq.
  assert (Hfits : JsString.endsWith (finalPath outputPath) ".fits" = true)
    by (unfold finalPath; apply endsWith_append).
  rewrite Heq in Hfits. vm_compute in Hfits. discriminate Hfits.
Qed.

(** C2, as the scripts have it.  Take a run in which the engine returned
    and the image was saved.  The version with the sentinel block then
    returns normally in every case.  When no file operation of the block
    fails, the file [C:/Temp/PixStack/basic_stack_complete.tmp] holds
    the text [done] followed by the line terminator of [outTextLn].
    When [createForWriting] fails, the failure is caught: the handler's
    line is printed and the sentinel is not written (what was under its
    name before the run is still there, or nothing).  The version that
    ends with [Done.] returns normally and does not write the sentinel
    either. *)
Theorem sentinel_after_saved_image (l : list json) (params : json)
    (outputPath : string) (id : nat) :
  loads host w inputFilePath (JArr l) ->
  (2 <= length l)%nat ->
  loads host w paramFilePath params ->
  property params "output_path" = Js (JStr outputPath) ->
  integrate host (integration_instance (frames_of l)) (activeWindow w) = inr (Window id) ->
  save_fault host id (finalPath outputPath) = None ->
  outcome (StackSignal.main host w) = Normal () /\
  (io_ok host "/basic_stack_complete.tmp" ->
     files (world (StackSignal.main host w)) !! "C:/Temp/PixStack/basic_stack_complete.tmp"
       = Some ("done" +:+ eol host)) /\
  (forall e,
     io_fault host (DirectoryExists "C:/Temp/PixStack") = None ->
     io_fault host (CreateDirectory "C:/Temp/PixStack") = None ->
     io_fault host (CreateForWriting "C:/Temp/PixStack/basic_stack_complete.tmp") = Some e ->
     files (world (StackSignal.main host w)) !! "C:/Temp/PixStack/basic_stack_complete.tmp"
       = files w !! "C:/Temp/PixStack/basic_stack_complete.tmp" /\
     last (events (StackSignal.main host w)) =
       Some (Writeln ("Error creating signal file: " +:+ message e))) /\
  outcome (StackPlain.main host w) = Normal () /\
  files (world (StackPlain.main host w)) !! "C:/Temp/PixStack/basic_stack_complete.tmp"
    = files w !! "C:/Temp/PixStack/basic_stack_complete.tmp".
Proof.
  intros Hi Hlen Hp Hout Heng Hsave.
  pose proof (integrate_and_save_saved l params outputPath id Hi Hlen Hp Hout Heng Hsave)
    as Hrun.
  pose proof (finalPath_is_no_sentinel outputPath) as Hname.
  unfold StackSignal.main, StackPlain.main. rewrite !bind_step, Hrun.
  cbn [outcome world events]. unfold after. cbn [outcome world events].
  set (w' := {| files := <[ finalPath outputPath := saved_image host id ]> (files w);
                directories := directories w; activeWindow := Window id |}).
  split; [apply signal_returns|]. split; [|split].
  - intros Hio. now apply signal_written.
  - intros e Hd Hc Hw.
    destruct (signal_caught host "/basic_stack_complete.tmp" w' e Hd Hc Hw) as (_ & Hfiles & Hev).
    split.
    + rewrite Hfiles. subst w'. cbn [files]. now apply lookup_insert_ne.
    + rewrite Hev. reflexivity.
  - split; [reflexivity|]. cbn [writeln emit world files]. now apply lookup_insert_ne.
Qed.

End StackingClaims.

(** ** The calibration script and the fate of failures *)

Section StageClaims.

Context (host : Host) (w : World).





End StageClaims.

(** ** The claims on concrete runs *)

Lemma engine_once_then_one_save_witness :
  loads Scenario.runtime Scenario.two_frames inputFilePath (JArr [JStr "a.fits"; JStr "b.fits"]) /\
  (engine_calls (events (StackSignal.main Scenario.runtime Scenario.two_frames)) =
     [integration_instance (frames_of [JStr "a.fits"; JStr "b.fits"])] /\
   save_calls (events (StackSignal.main Scenario.runtime Scenario.two_frames)) =
     [(1%nat, finalPath "C:/out/stack", (false, false, false, false))]) /\
  (engine_calls (events (StackPlain.main Scenario.runtime_no_result Scenario.two_frames)) =
     [integration_instance (frames_of [JStr "a.fits"; JStr "b.fits"])] /\
   save_calls (events (StackPlain.main Scenario.runtime_no_result Scenario.two_frames)) = [] /\
   outcome (StackPlain.main Scenario.runtime_no_result Scenario.two_frames) =
     Thrown (Error "No active image window after ImageIntegration — integration likely failed.")).
Proof.
  assert (Hi : loads Scenario.runtime Scenario.two_frames inputFilePath
                 (JArr [JStr "a.fits"; JStr "b.fits"])) by reflexivity.
  assert (Hlen : (2 <= length [JStr "a.fits"; JStr "b.fits"])%nat) by (simpl; lia).
  assert (Hp : loads Scenario.runtime Scenario.two_frames paramFilePath
                 (JObj [("output_path", JStr "C:/out/stack")])) by reflexivity.
  assert (Hnull : JObj [("output_path", JStr "C:/out/stack")] <> JNull) by discriminate.
  assert (Hsignal : In StackSignal.main stacking_mains) by (left; reflexivity).
  assert (Hplain : In StackPlain.main stacking_mains) by (right; left; reflexivity).
  destruct (engine_once_then_one_save Scenario.runtime Scenario.two_frames
              _ _ (Window 1) _ Hi Hlen Hp Hnull eq_refl Hsignal) as [He Hs].
  destruct (engine_once_then_one_save Scenario.runtime_no_result Scenario.two_frames
              _ _ NullWindow _ Hi Hlen Hp Hnull eq_refl Hplain) as [He' [Hs' Ho']].
  split; [exact Hi|]. split.
  - split; [exact He|]. exact (proj1 (Hs "C:/out/stack" eq_refl)).
  - split; [exact He'|]. split; [exact Hs' | exact Ho'].
Defined.

Lemma frames_follow_input_files_witness :
  loads Scenario.runtime Scenario.two_frames inputFilePath (JArr [JStr "a.fits"; JStr "b.fits"]) /\
  exists P,
    engine_calls (events (StackSignal.main Scenario.runtime Scenario.two_frames)) = [P] /\
    images P = [(true, JStr "a.fits", EmptyString, EmptyString);
                (true, JStr "b.fits", EmptyString, EmptyString)] /\
    save_calls (events (StackSignal.main Scenario.runtime Scenario.two_frames)) =
      [(1%nat, "C:/out/stack.fits", (false, false, false, false))].
Proof.
  assert (Hi : loads Scenario.runtime Scenario.two_frames inputFilePath
                 (JArr [JStr "a.fits"; JStr "b.fits"])) by reflexivity.
  assert (Hlen : (2 <= length [JStr "a.fits"; JStr "b.fits"])%nat) by (simpl; lia).
  assert (Hp : loads Scenario.runtime Scenario.two_frames paramFilePath
                 (JObj [("output_path", JStr "C:/out/stack")])) by reflexivity.
  assert (Hnull : JObj [("output_path", JStr "C:/out/stack")] <> JNull) by discriminate.
  assert (Hmain : In StackSignal.main stacking_mains) by (left; reflexivity).
  destruct (frames_follow_input_files Scenario.runtime Scenario.two_frames
              _ _ _ Hi Hlen Hp Hnull Hmain) as (P & He & _ & _ & Hab).
  destruct (Hab eq_refl eq_refl) as [Him Hsave].
  split; [exact Hi|]. exists P.
  split; [exact He|]. split; [exact Him|].
  apply (Hsave 1%nat). reflexivity.
Defined.

Lemma too_few_inputs_exit_with_1_witness :
  loads Scenario.runtime Scenario.no_frames inputFilePath (JArr []) /\
  outcome (StackSignal.main Scenario.runtime Scenario.no_frames) = Exited 1 /\
  outcome (StackPlain.main Scenario.runtime Scenario.no_frames) = Exited 1 /\
  outcome (Calibration.main Scenario.runtime Scenario.no_frames) = Exited 1.
Proof.
  assert (Hi : loads Scenario.runtime Scenario.no_frames inputFilePath (JArr [])) by reflexivity.
  assert (Hp : loads Scenario.runtime Scenario.no_frames paramFilePath
                 (JObj [("output_path", JStr "C:/out/stack")])) by reflexivity.
  assert (H2 : (@length json [] < 2)%nat) by (simpl; lia).
  assert (H1 : (@length json [] < 1)%nat) by (simpl; lia).
  destruct (too_few_inputs_exit_with_1 Scenario.runtime Scenario.no_frames [] Hi)
    as [Hstack Hcal].
  split; [exact Hi|]. split; [|split].
  - apply (Hstack _ StackSignal.main H2 Hp). left; reflexivity.
  - apply (Hstack _ StackPlain.main H2 Hp). right; left; reflexivity.
  - apply (Hcal H1).
Defined.

Lemma params_read_before_count_in_stacking_only_witness :
  files Scenario.no_frames_no_params !! paramFilePath = None /\
  loads Scenario.runtime Scenario.no_frames_no_params inputFilePath (JArr []) /\
  outcome (StackSignal.main Scenario.runtime Scenario.no_frames_no_params) =
    Thrown (Error "Missing JSON file: C:/Temp/PixStack/params.json") /\
  outcome (Calibration.main Scenario.runtime Scenario.no_frames_no_params) = Exited 1.
Proof.
  assert (Hf : files Scenario.no_frames_no_params !! paramFilePath = None) by reflexivity.
  assert (Hi : loads Scenario.runtime Scenario.no_frames_no_params inputFilePath (JArr []))
    by reflexivity.
  destruct (params_read_before_count_in_stacking_only Scenario.runtime
              Scenario.no_frames_no_params Hf) as [Hstack Hcal].
  split; [exact Hf|]. split; [exact Hi|]. split.
  - destruct (Hstack StackSignal.main (or_introl eq_refl)) as (_ & _ & Hthrown).
    apply (Hthrown _ Hi).
  - apply (Hcal Hi).
Defined.

Lemma sentinel_after_saved_image_witness :
  loads Scenario.runtime Scenario.two_frames inputFilePath (JArr [JStr "a.fits"; JStr "b.fits"]) /\
  io_ok Scenario.runtime "/basic_stack_complete.tmp" /\
  outcome (StackSignal.main Scenario.runtime Scenario.two_frames) = Normal () /\
  files (world (StackSignal.main Scenario.runtime Scenario.two_frames))
    !! "C:/Temp/PixStack/basic_stack_complete.tmp" = Some ("done" +:+ Scenario.line_feed).
Proof.
  assert (Hi : loads Scenario.runtime Scenario.two_frames inputFilePath
                 (JArr [JStr "a.fits"; JStr "b.fits"])) by reflexivity.
  assert (Hlen : (2 <= length [JStr "a.fits"; JStr "b.fits"])%nat) by (simpl; lia).
  assert (Hp : loads Scenario.runtime Scenario.two_frames paramFilePath
                 (JObj [("output_path", JStr "C:/out/stack")])) by reflexivity.
  assert (Hio : io_ok Scenario.runtime "/basic_stack_complete.tmp")
    by (repeat split; reflexivity).
  destruct (sentinel_after_saved_image Scenario.runtime Scenario.two_frames
              _ _ "C:/out/stack" 1%nat Hi Hlen Hp eq_refl eq_refl eq_refl)
    as (Hn & Hdone & _).
  split; [exact Hi|]. split; [exact Hio|]. split; [exact Hn|]. exact (Hdone Hio).
Defined.

(** C2 as the specification words it fails in three ways.  On a run of
    the version ending with [Done.] the image is saved and no sentinel
    exists afterwards.  On a run of the other version on a disk that
    refuses new files the image is saved, the script returns normally
    and no sentinel exists.  And where the sentinel is written it holds
    [done] and a line feed, which is not the text [done]. *)
Lemma sentinel_counterexample :
  (outcome (StackPlain.main Scenario.runtime Scenario.two_frames) = Normal () /\
   save_calls (events (StackPlain.main Scenario.runtime Scenario.two_frames)) =
     [(1%nat, "C:/out/stack.fits", (false, false, false, false))] /\
   files (world (StackPlain.main Scenario.runtime Scenario.two_frames))
     !! "C:/Temp/PixStack/basic_stack_complete.tmp" = None) /\
  (outcome (StackSignal.main Scenario.runtime_disk_full Scenario.two_frames) = Normal () /\
   save_calls (events (StackSignal.main Scenario.runtime_disk_full Scenario.two_frames)) =
     [(1%nat, "C:/out/stack.fits", (false, false, false, false))] /\
   files (world (StackSignal.main Scenario.runtime_disk_full Scenario.two_frames))
     !! "C:/Temp/PixStack/basic_stack_complete.tmp" = None) /\
  (outcome (StackSignal.main Scenario.runtime Scenario.two_frames) = Normal () /\
   files (world (StackSignal.main Scenario.runtime Scenario.two_frames))
     !! "C:/Temp/PixStack/basic_stack_complete.tmp" <> Some "done").
Proof.
  split; [|split].
  - split; [|split]; vm_compute; reflexivity.
  - split; [|split]; vm_compute; reflexivity.
  - split; [vm_compute; reflexivity|]. vm_compute. discriminate.
Qed.





(** * Further properties of the scripts *)

(** ** Runs the claims do not visit *)

Section OtherRuns.

Context (host : Host) (w : World).

(** Parameters that parsed to null: reading [output_path] throws, before
    the engine is set up. *)
Lemma integrate_and_save_null_params (inputFiles : json) :
  loads host w inputFilePath inputFiles ->
  loads host w paramFilePath JNull ->
  count_test host inputFiles 2 = Some false ->
  exists msg,
    integrate_and_save host w =
    {| outcome := Thrown (TypeError msg); world := w; events := [banner] |}.
Proof.
  intros Hi Hp Hfew. unfold integrate_and_save.
  apply readJson_returns in Hi, Hp.
  do 3 step. rewrite (bind_Normal _ _ _ _ _ _ (tooFew_counts _ _ _ _ _ Hfew)).
  repeat step. eexists. reflexivity.
Qed.

(** Inputs that are no array but pass the count: [map] is no function. *)
Lemma integrate_and_save_not_array (inputFiles params : json) :
  loads host w inputFilePath inputFiles ->
  loads host w paramFilePath params ->
  count_test host inputFiles 2 = Some false ->
  params <> JNull ->
  (forall l, inputFiles <> JArr l) ->
  exists msg,
    integrate_and_save host w =
    {| outcome := Thrown (TypeError msg); world := w; events := [banner] |}.
Proof.
  intros Hi Hp Hfew Hnull Harr. unfold integrate_and_save.
  apply readJson_returns in Hi, Hp.
  do 3 step. rewrite (bind_Normal _ _ _ _ _ _ (tooFew_counts _ _ _ _ _ Hfew)).
  assert (Hm : member params "output_path" w =
               {| outcome := Normal (property params "output_path"); world := w; events := [] |})
    by (destruct params; try reflexivity; congruence).
  do 2 step.
  destruct inputFiles as [|b|n|s|l|m]; try (repeat step; eexists; reflexivity).
  now destruct (Harr l).
Qed.

Lemma calibration_null_params (l : list json) (first : string) :
  loads host w inputFilePath (JArr l) ->
  (1 <= length l)%nat ->
  ToString host (property (JArr l) "0") = Some first ->
  loads host w paramFilePath JNull ->
  exists msg,
    Calibration.main host w =
    {| outcome := Thrown (TypeError msg); world := w; events := input_lines host l first |}.
Proof.
  intros Hi Hlen Hfirst Hp. unfold Calibration.main.
  apply readJson_returns in Hi, Hp.
  do 2 step. rewrite (bind_Normal _ _ _ _ _ _ (tooFew_array _ _ _ _)).
  replace (Z.of_nat (length l) <? 1) with false by (symmetry; apply Z.ltb_ge; lia).
  do 4 step. erewrite (bind_Normal _ _ _ _ (property (JArr l) "0")) by reflexivity.
  rewrite bind_plus, Hfirst. repeat step. eexists. reflexivity.
Qed.

(** Inputs that are no array but pass the count of the calibration
    script: whatever the parameter file holds, the run ends by a thrown
    value before the engine is set up. *)
Lemma calibration_not_array (inputFiles : json) :
  loads host w inputFilePath inputFiles ->
  count_test host inputFiles 1 = Some false ->
  (forall l, inputFiles <> JArr l) ->
  world (Calibration.main host w) = w /\
  (exists e, outcome (Calibration.main host w) = Thrown e) /\
  forall ev, In ev (events (Calibration.main host w)) -> exists text, ev = Writeln text.
Proof.
  intros Hi Hfew Harr. unfold Calibration.main.
  apply readJson_returns in Hi.
  assert (Hnonnull : inputFiles <> JNull) by (intros ->; discriminate Hfew).
  assert (Hm : forall o key, o <> JNull -> member o key w =
                 {| outcome := Normal (property o key); world := w; events := [] |})
    by (intros o key Ho; destruct o; try reflexivity; congruence).
  pose proof (Hm inputFiles "length" Hnonnull) as Hlength.
  pose proof (Hm inputFiles "0" Hnonnull) as Hzero.
  assert (Hmap : forall B (f : json -> B), exists msg,
            Array_map inputFiles f w =
            {| outcome := Thrown (TypeError msg); world := w; events := [] |}).
  { intros B f. destruct inputFiles; try (eexists; reflexivity). now destruct (Harr items). }
  destruct (Hmap _ (fun f : json => (true, f))) as [msg Hmapped].
  do 2 step. rewrite (bind_Normal _ _ _ _ _ _ (tooFew_counts _ _ _ _ _ Hfew)).
  do 2 step. rewrite bind_plus.
  destruct (ToString host (property inputFiles "length")) as [loaded|];
    [| split; [reflexivity|]; split; [eauto|];
       intros ev [<-|[]]; unfold calibration_banner; eauto ].
  do 2 step. rewrite bind_plus.
  destruct (ToString host (property inputFiles "0")) as [first|];
    [| split; [reflexivity|]; split; [eauto|];
       intros ev [<-|[<-|[]]]; unfold calibration_banner; eauto ].
  step.
  destruct (outcome (readJson host paramFilePath w)) as [params|e|n] eqn:Hp;
    [ apply readJson_returns in Hp;
      assert (Hnull : params = JNull \/ params <> JNull)
        by (destruct params; auto; right; discriminate);
      destruct Hnull as [->|Hnull];
      [| pose proof (Hm params "master_flat" Hnull); pose proof (Hm params "master_dark" Hnull);
         pose proof (Hm params "output_dir" Hnull); pose proof (Hm params "prefix" Hnull) ]
    | apply readJson_throws in Hp
    | now apply readJson_no_exit in Hp ];
    (repeat step; split; [reflexivity|]; split; [eauto|];
     intros ev [<-|[<-|[<-|[]]]]; unfold calibration_banner; eauto).
Qed.

(** A count that cannot be taken: [length] is an object that does not
    convert to a number, and the comparison throws. *)
Lemma integrate_and_save_count_throws (inputFiles params : json) :
  loads host w inputFilePath inputFiles ->
  loads host w paramFilePath params ->
  count_test host inputFiles 2 = None ->
  exists msg,
    integrate_and_save host w =
    {| outcome := Thrown (TypeError msg); world := w; events := [banner] |}.
Proof.
  intros Hi Hp Hfew. unfold integrate_and_save.
  apply readJson_returns in Hi, Hp.
  pose proof (tooFew_throws host inputFiles 2 w Hfew) as Ht.
  repeat step. eexists. reflexivity.
Qed.

Lemma calibration_count_throws (inputFiles : json) :
  loads host w inputFilePath inputFiles ->
  count_test host inputFiles 1 = None ->
  exists msg,
    Calibration.main host w =
    {| outcome := Thrown (TypeError msg); world := w; events := [calibration_banner] |}.
Proof.
  intros Hi Hfew. unfold Calibration.main.
  apply readJson_returns in Hi.
  pose proof (tooFew_throws host inputFiles 1 w Hfew) as Ht.
  repeat step. eexists. reflexivity.
Qed.

End OtherRuns.

(** ** Every run of the stage scripts *)

Section EveryRun.

Context (host : Host) (w : World).

Lemma saved_files_other (id : nat) (filePath path : string) (before : gmap string string) :
  path <> filePath -> saved_files host id filePath before !! path = before !! path.
Proof.
  intros Hne. unfold saved_files.
  destruct (save_fault host id filePath); [destruct (save_partial host id filePath)|];
    try reflexivity; now apply lookup_insert_ne.
Qed.

(** The common part of the stacking scripts, whatever the runtime and the
    world: the only file it can change is the one [saveAs] was called
    on, whose name ends in [.fits]; it leaves the directories alone, and it ends without any engine
    call, or after one engine call and no save, or after one engine call
    and one save whose result is the result of the run. *)
Lemma integrate_and_save_cases :
  (forall path,
     files (world (integrate_and_save host w)) !! path <> files w !! path ->
     exists id outputPath,
       path = finalPath outputPath /\
       save_calls (events (integrate_and_save host w)) =
         [(id, path, (false, false, false, false))]) /\
  directories (world (integrate_and_save host w)) = directories w /\
  ((engine_calls (events (integrate_and_save host w)) = [] /\
    save_calls (events (integrate_and_save host w)) = [] /\
    outcome (integrate_and_save host w) <> Normal ()) \/
   (exists P,
      engine_calls (events (integrate_and_save host w)) = [P] /\
      save_calls (events (integrate_and_save host w)) = [] /\
      outcome (integrate_and_save host w) <> Normal ()) \/
   (exists P id path,
      engine_calls (events (integrate_and_save host w)) = [P] /\
      save_calls (events (integrate_and_save host w)) =
        [(id, path, (false, false, false, false))] /\
      outcome (integrate_and_save host w) =
        match save_fault host id path with
        | Some e => Thrown e
        | None => Normal ()
        end)).
Proof.
  assert (Hstopped : forall (o : result ()) evs,
            integrate_and_save host w = {| outcome := o; world := w; events := evs |} ->
            o <> Normal () -> engine_calls evs = [] -> save_calls evs = [] ->
            (forall path,
               files (world (integrate_and_save host w)) !! path <> files w !! path ->
               exists id outputPath,
                 path = finalPath outputPath /\
                 save_calls (events (integrate_and_save host w)) =
                   [(id, path, (false, false, false, false))]) /\
            directories (world (integrate_and_save host w)) = directories w /\
            ((engine_calls (events (integrate_and_save host w)) = [] /\
              save_calls (events (integrate_and_save host w)) = [] /\
              outcome (integrate_and_save host w) <> Normal ()) \/
             (exists P,
                engine_calls (events (integrate_and_save host w)) = [P] /\
                save_calls (events (integrate_and_save host w)) = [] /\
                outcome (integrate_and_save host w) <> Normal ()) \/
             (exists P id path,
                engine_calls (events (integrate_and_save host w)) = [P] /\
                save_calls (events (integrate_and_save host w)) =
                  [(id, path, (false, false, false, false))] /\
                outcome (integrate_and_save host w) =
                  match save_fault host id path with
                  | Some e => Thrown e
                  | None => Normal ()
                  end))).
  { intros o evs -> Ho He Hs. cbn [outcome world events].
    split; [intros path Hpath; now destruct Hpath|]. split; [reflexivity|]. left. auto. }
  destruct (outcome (readJson host inputFilePath w)) as [inputFiles|e|n] eqn:Hi;
    [| (eapply Hstopped; [exact (integrate_and_save_inputs_thrown host w e Hi) | discriminate | reflexivity | reflexivity])
     | now apply readJson_no_exit in Hi ].
  destruct (outcome (readJson host paramFilePath w)) as [params|e|n] eqn:Hp;
    [| (eapply Hstopped; [exact (integrate_and_save_params_thrown host w inputFiles e Hi Hp) | discriminate | reflexivity | reflexivity])
     | now apply readJson_no_exit in Hp ].
  destruct (count_test host inputFiles 2) as [[|]|] eqn:Hfew.
  { (eapply Hstopped; [exact (integrate_and_save_few host w inputFiles params Hi Hp Hfew) | discriminate | reflexivity | reflexivity]). }
  2: { destruct (integrate_and_save_count_throws host w inputFiles params Hi Hp Hfew)
         as [msg Hrun].
       (eapply Hstopped; [exact Hrun | discriminate | reflexivity | reflexivity]). }
  assert (Hnull : params = JNull \/ params <> JNull)
    by (destruct params; auto; right; discriminate).
  destruct Hnull as [->|Hnull].
  { destruct (integrate_and_save_null_params host w inputFiles Hi Hp Hfew) as [msg Hrun].
    (eapply Hstopped; [exact Hrun | discriminate | reflexivity | reflexivity]). }
  assert (Harr : (exists l, inputFiles = JArr l) \/ (forall l, inputFiles <> JArr l))
    by (destruct inputFiles; eauto; right; discriminate).
  destruct Harr as [[l ->]|Harr].
  - assert (Hlen : (2 <= length l)%nat).
    { rewrite count_test_array in Hfew. injection Hfew as Hfew.
      apply Z.ltb_ge in Hfew. lia. }
    rewrite (integrate_and_save_loaded host w l params Hi Hlen Hp Hnull). cbv zeta.
    destruct (integrate host _ (activeWindow w)) as [e|[|id]]; cbn [outcome world events files directories].
    + split; [intros path Hpath; now destruct Hpath|]. split; [reflexivity|].
      right; left. eexists. repeat split; discriminate.
    + split; [intros path Hpath; now destruct Hpath|]. split; [reflexivity|].
      right; left. eexists. repeat split; discriminate.
    + destruct (property params "output_path") as [|[| | |outputPath| |]];
        cbn [outcome world events files directories];
        try (split; [intros path Hpath; now destruct Hpath|]; split; [reflexivity|];
             right; left; eexists; repeat split; discriminate).
      split; [|split; [reflexivity|]].
      * intros path Hpath. exists id, outputPath.
        destruct (String.eqb_spec path (finalPath outputPath)) as [->|Hne]; [auto|].
        exfalso. apply Hpath. now apply saved_files_other.
      * right; right. do 3 eexists. repeat split.
  - destruct (integrate_and_save_not_array host w inputFiles params Hi Hp Hfew Hnull Harr)
      as [msg Hrun].
    (eapply Hstopped; [exact Hrun | discriminate | reflexivity | reflexivity]).
Qed.

(** The calibration script, whatever the runtime and the world: it calls
    neither ImageIntegration nor [saveAs], and it ends without any
    engine call and with the world as it was, or after one engine call
    and with the world as that call left it. *)
Lemma calibration_cases :
  engine_calls (events (Calibration.main host w)) = [] /\
  save_calls (events (Calibration.main host w)) = [] /\
  ((calibration_calls (events (Calibration.main host w)) = [] /\
    outcome (Calibration.main host w) <> Normal () /\
    world (Calibration.main host w) = w) \/
   (exists P l,
      loads host w inputFilePath (JArr l) /\ (1 <= length l)%nat /\
      targetFrames P = map (fun f => (true, f)) l /\
      calibration_calls (events (Calibration.main host w)) = [P] /\
      world (Calibration.main host w) = calibrate_world host P w /\
      (outcome (Calibration.main host w) = Normal () -> calibrate host P = None))).
Proof.
  assert (Hquiet : forall evs : list event,
            (forall ev, In ev evs -> exists text, ev = Writeln text) ->
            engine_calls evs = [] /\ save_calls evs = [] /\ calibration_calls evs = []).
  { induction evs as [|ev evs IH]; intros Hall; [auto|].
    destruct (Hall ev (or_introl eq_refl)) as [text ->].
    apply IH. intros ev' Hin. apply Hall. now right. }
  assert (Hstopped : forall (o : result ()) evs,
            Calibration.main host w = {| outcome := o; world := w; events := evs |} ->
            o <> Normal () ->
            engine_calls evs = [] -> save_calls evs = [] -> calibration_calls evs = [] ->
            engine_calls (events (Calibration.main host w)) = [] /\
            save_calls (events (Calibration.main host w)) = [] /\
            ((calibration_calls (events (Calibration.main host w)) = [] /\
              outcome (Calibration.main host w) <> Normal () /\
              world (Calibration.main host w) = w) \/
             (exists P l,
                loads host w inputFilePath (JArr l) /\ (1 <= length l)%nat /\
                targetFrames P = map (fun f => (true, f)) l /\
                calibration_calls (events (Calibration.main host w)) = [P] /\
                world (Calibration.main host w) = calibrate_world host P w /\
                (outcome (Calibration.main host w) = Normal () -> calibrate host P = None)))).
  { intros o evs -> Ho He Hs Hc. cbn [outcome world events]. auto 6. }
  destruct (outcome (readJson host inputFilePath w)) as [inputFiles|e|n] eqn:Hi;
    [| (eapply Hstopped; [exact (calibration_inputs_thrown host w e Hi) | discriminate | reflexivity | reflexivity | reflexivity])
     | now apply readJson_no_exit in Hi ].
  destruct (count_test host inputFiles 1) as [[|]|] eqn:Hfew.
  { (eapply Hstopped; [exact (calibration_few host w inputFiles Hi Hfew) | discriminate | reflexivity | reflexivity | reflexivity]). }
  2: { destruct (calibration_count_throws host w inputFiles Hi Hfew) as [msg Hrun].
       (eapply Hstopped; [exact Hrun | discriminate | reflexivity | reflexivity | reflexivity]). }
  assert (Harr : (exists l, inputFiles = JArr l) \/ (forall l, inputFiles <> JArr l))
    by (destruct inputFiles; eauto; right; discriminate).
  destruct Harr as [[l ->]|Harr].
  - assert (Hlen : (1 <= length l)%nat).
    { rewrite count_test_array in Hfew. injection Hfew as Hfew.
      apply Z.ltb_ge in Hfew. lia. }
    destruct (ToString host (property (JArr l) "0")) as [first|] eqn:Hfirst;
      [| (eapply Hstopped; [exact (calibration_first_unprintable host w l Hi Hlen Hfirst) | discriminate | reflexivity | reflexivity | reflexivity]) ].
    destruct (outcome (readJson host paramFilePath w)) as [params|e|n] eqn:Hp;
      [| (eapply Hstopped; [exact (calibration_params_thrown host w l first e Hi Hlen Hfirst Hp) | discriminate | reflexivity | reflexivity | reflexivity])
       | now apply readJson_no_exit in Hp ].
    assert (Hnull : params = JNull \/ params <> JNull)
      by (destruct params; auto; right; discriminate).
    destruct Hnull as [->|Hnull].
    { destruct (calibration_null_params host w l first Hi Hlen Hfirst Hp) as [msg Hrun].
      (eapply Hstopped; [exact Hrun | discriminate | reflexivity | reflexivity | reflexivity]). }
    pose proof (calibration_loaded host w l first params Hi Hlen Hfirst Hp Hnull) as Hrun.
    cbv zeta in Hrun.
    set (P := calibration_instance (map (fun f => (true, f)) l)
                (property params "master_dark") (property params "master_flat")
                (property params "output_dir") (property params "prefix")) in *.
    destruct (ToString host (property params "master_flat")) as [flat|];
      [| (eapply Hstopped; [exact Hrun | discriminate | reflexivity | reflexivity | reflexivity]) ].
    destruct (ToString host (property params "master_dark")) as [dark|];
      [| (eapply Hstopped; [exact Hrun | discriminate | reflexivity | reflexivity | reflexivity]) ].
    assert (Hcalled : forall (o : result ()) tail,
              (forall ev, In ev tail -> exists text, ev = Writeln text) ->
              (o = Normal () -> calibrate host P = None) ->
              Calibration.main host w =
              {| outcome := o; world := calibrate_world host P w;
                 events := ((input_lines host l first ++
                   [Writeln (NumberToString host (Z.of_nat (length l)) +:+ " target frames loaded.")]) ++
                   [Writeln ("Master flat: " +:+ flat); Writeln ("Master dark: " +:+ dark);
                    Writeln ">> Running ImageCalibration..."; ExecuteCalibration P]) ++ tail |} ->
              engine_calls (events (Calibration.main host w)) = [] /\
              save_calls (events (Calibration.main host w)) = [] /\
              ((calibration_calls (events (Calibration.main host w)) = [] /\
                outcome (Calibration.main host w) <> Normal () /\
                world (Calibration.main host w) = w) \/
               (exists P l,
                  loads host w inputFilePath (JArr l) /\ (1 <= length l)%nat /\
                  targetFrames P = map (fun f => (true, f)) l /\
                  calibration_calls (events (Calibration.main host w)) = [P] /\
                  world (Calibration.main host w) = calibrate_world host P w /\
                  (outcome (Calibration.main host w) = Normal () -> calibrate host P = None)))).
    { intros o tail Htail Ho ->. cbn [outcome world events].
      destruct (Hquiet tail Htail) as (He & Hs & Hc).
      rewrite engine_calls_app, save_calls_app, He, Hs.
      split; [reflexivity|]. split; [reflexivity|].
      right. exists P, l. split; [exact Hi|]. split; [exact Hlen|]. split; [reflexivity|].
      split; [|split; [reflexivity | exact Ho]].
      unfold calibration_calls. rewrite omap_app. fold (calibration_calls tail).
      rewrite Hc. reflexivity. }
    destruct (calibrate host P) as [e|] eqn:Hc.
    + apply (Hcalled (Thrown e) []); [intros ev [] | discriminate |].
      rewrite Hrun, app_nil_r. reflexivity.
    + destruct (ToString host (property params "output_dir")) as [dir|].
      * apply (Hcalled (Normal ())
                 [Writeln ">> ImageCalibration completed successfully.";
                  Writeln ("Integrated images saved to: " +:+ dir)]);
          [intros ev [<-|[<-|[]]]; eauto | reflexivity | exact Hrun].
      * apply (Hcalled (Thrown (TypeError "cannot convert object to primitive value"))
                 [Writeln ">> ImageCalibration completed successfully."]);
          [intros ev [<-|[]]; eauto | discriminate | exact Hrun].
  - destruct (calibration_not_array host w inputFiles Hi Hfew Harr) as (Hw & [e He] & Hev).
    destruct (Hquiet _ Hev) as (Heng & Hsave & Hcal).
    split; [exact Heng|]. split; [exact Hsave|].
    left. split; [exact Hcal|]. split; [rewrite He; discriminate | exact Hw].
Qed.

End EveryRun.

(** ** What [readJson] does in every case *)

(** X1. [readJson] returns a value exactly when the file exists, is
    read without error and parses, and the value is what JSON.parse
    gave.  When the file is read but does not parse, [readJson] throws
    what JSON.parse threw.  In every case it leaves the world as it was,
    prints nothing and never calls [exit]. *)
Theorem readJson_contract (host : Host) (w : World) (path : string) :
  (forall j,
     outcome (readJson host path w) = Normal j <->
     exists text, files w !! path = Some text /\
                  io_fault host (ReadTextFile path) = None /\
                  JSON_parse host text = inr j) /\
  (forall text e,
     files w !! path = Some text ->
     io_fault host (ReadTextFile path) = None ->
     JSON_parse host text = inl e ->
     outcome (readJson host path w) = Thrown e) /\
  world (readJson host path w) = w /\
  events (readJson host path w) = [] /\
  (forall n, outcome (readJson host path w) <> Exited n).
Proof.
  split; [|split; [|split; [|split]]].
  - intros j. apply readJson_Normal.
  - intros text e. apply readJson_malformed.
  - now rewrite readJson_pure.
  - now rewrite readJson_pure.
  - intros n. apply readJson_no_exit.
Qed.

Lemma readJson_contract_witness :
  outcome (readJson Scenario.runtime inputFilePath Scenario.two_frames) =
    Normal (JArr [JStr "a.fits"; JStr "b.fits"]) /\
  outcome (readJson Scenario.runtime inputFilePath Scenario.garbled_inputs) =
    Thrown (SyntaxError "JSON.parse: unexpected character").
Proof.
  split.
  - apply (proj1 (readJson_contract Scenario.runtime Scenario.two_frames inputFilePath)).
    exists Scenario.two_inputs. repeat split; reflexivity.
  - destruct (readJson_contract Scenario.runtime Scenario.garbled_inputs inputFilePath)
      as (_ & Hmalformed & _).
    apply (Hmalformed "[a.fits" _ eq_refl eq_refl eq_refl).
Defined.

(** ** Inputs and parameters of the wrong kind *)

Section WrongKind.

Context (host : Host) (w : World).

(** X2. An input file that holds null, false, 0 or the empty string is
    taken for too few inputs: [!inputFiles] is true, the length is not
    read, and the script exits with status 1 before any engine call,
    in both versions of the stacking script and in the calibration
    script. *)
Theorem falsy_inputs_exit_with_1 (inputFiles : json) :
  loads host w inputFilePath inputFiles ->
  ToBoolean inputFiles = false ->
  (forall params main,
     loads host w paramFilePath params -> In main stacking_mains ->
     outcome (main host w) = Exited 1 /\
     engine_calls (events (main host w)) = [] /\
     critical_lines (events (main host w)) = ["Error: Need at least two input files."]) /\
  (outcome (Calibration.main host w) = Exited 1 /\
   calibration_calls (events (Calibration.main host w)) = [] /\
   critical_lines (events (Calibration.main host w)) = ["Error: Need at least one input file."]).
Proof.
  intros Hi Hfalsy. split.
  - intros params main Hp Hmain.
    destruct (stacking_main_calls host w main Hmain) as (Ho & He & _ & Hc).
    rewrite Ho, He, Hc.
    rewrite (integrate_and_save_few host w inputFiles params Hi Hp); [now simpl|].
    unfold count_test. now rewrite Hfalsy.
  - rewrite (calibration_few host w inputFiles Hi); [now simpl|].
    unfold count_test. now rewrite Hfalsy.
Qed.

(** X3. Input files that hold something else than an array never reach
    the engine.  Whatever the value is and whatever the parameter file
    holds, the stacking scripts call neither the engine nor [saveAs] and
    do not return normally, and the calibration script calls no engine
    and does not return normally: a value that passes the count (a
    string of two units, an object) fails at [map]. *)
Theorem non_array_inputs_never_reach_engine (inputFiles : json) :
  loads host w inputFilePath inputFiles ->
  (forall l, inputFiles <> JArr l) ->
  (forall main, In main stacking_mains ->
     engine_calls (events (main host w)) = [] /\
     save_calls (events (main host w)) = [] /\
     outcome (main host w) <> Normal ()) /\
  (calibration_calls (events (Calibration.main host w)) = [] /\
   outcome (Calibration.main host w) <> Normal ()).
Proof.
  intros Hi Harr. split.
  - intros main Hmain.
    destruct (stacking_main_calls host w main Hmain) as (Ho & He & Hs & _).
    rewrite Ho, He, Hs.
    destruct (outcome (readJson host paramFilePath w)) as [params|e|n] eqn:Hp;
      [| rewrite (integrate_and_save_params_thrown host w inputFiles e Hi Hp); simpl;
         repeat split; discriminate
       | now apply readJson_no_exit in Hp ].
    destruct (count_test host inputFiles 2) as [[|]|] eqn:Hfew.
    { rewrite (integrate_and_save_few host w inputFiles params Hi Hp Hfew); simpl.
      repeat split; discriminate. }
    2: { destruct (integrate_and_save_count_throws host w inputFiles params Hi Hp Hfew)
           as [msg ->].
         simpl. repeat split; discriminate. }
    assert (Hnull : params = JNull \/ params <> JNull)
      by (destruct params; auto; right; discriminate).
    destruct Hnull as [->|Hnull].
    + destruct (integrate_and_save_null_params host w inputFiles Hi Hp Hfew) as [msg ->].
      simpl. repeat split; discriminate.
    + destruct (integrate_and_save_not_array host w inputFiles params Hi Hp Hfew Hnull Harr)
        as [msg ->].
      simpl. repeat split; discriminate.
  - destruct (calibration_cases host w) as (_ & _ & [(Hnone & Hn & _) | (P & l & Hl & _)]).
    + split; [exact Hnone | exact Hn].
    + unfold loads in Hi, Hl. rewrite Hi in Hl. injection Hl as ->. now destruct (Harr l).
Qed.

(** X4. A parameter object without a string under [output_path] is found
    out only after the integration: with two inputs or more and an engine
    that returns a window, the engine is called once, then
    [outputPath.toLowerCase()] throws a TypeError, [saveAs] is not
    called, and the version with the sentinel block writes no file. *)
Theorem missing_output_path_fails_after_integration (l : list json) (params : json)
    (id : nat) (main : Host -> M unit) :
  loads host w inputFilePath (JArr l) ->
  (2 <= length l)%nat ->
  loads host w paramFilePath params ->
  params <> JNull ->
  (forall s, property params "output_path" <> Js (JStr s)) ->
  integrate host (integration_instance (frames_of l)) (activeWindow w) = inr (Window id) ->
  In main stacking_mains ->
  engine_calls (events (main host w)) = [integration_instance (frames_of l)] /\
  save_calls (events (main host w)) = [] /\
  (exists msg, outcome (main host w) = Thrown (TypeError msg)) /\
  files (world (StackSignal.main host w)) = files w.
Proof.
  intros Hi Hlen Hp Hnull Hout Heng Hmain.
  destruct (stacking_main_calls host w main Hmain) as (Ho & He & Hs & _).
  rewrite Ho, He, Hs.
  pose proof (integrate_and_save_loaded host w l params Hi Hlen Hp Hnull) as Hrun.
  cbv zeta in Hrun. rewrite Heng in Hrun.
  assert (Hrun' : integrate_and_save host w =
            {| outcome := Thrown (TypeError "toLowerCase is not a function");
               world := {| files := files w; directories := directories w;
                           activeWindow := Window id |};
               events := [banner; running;
                          ExecuteIntegration (integration_instance (frames_of l))] |}).
  { rewrite Hrun. destruct (property params "output_path") as [|[| | |s| |]];
      try reflexivity. now destruct (Hout s). }
  split; [now rewrite Hrun'|]. split; [now rewrite Hrun'|].
  split; [rewrite Hrun'; eauto|].
  unfold StackSignal.main. rewrite bind_step, Hrun'. reflexivity.
Qed.

(** X5. A parameter file that holds null stops the scripts before the
    engine: reading a parameter of null throws a TypeError, in the
    stacking scripts (two inputs or more) and in the calibration script
    (one input or more) alike, and no engine is called. *)
Theorem null_params_throw_before_engine (l : list json) :
  loads host w inputFilePath (JArr l) ->
  loads host w paramFilePath JNull ->
  (forall main, (2 <= length l)%nat -> In main stacking_mains ->
     (exists msg, outcome (main host w) = Thrown (TypeError msg)) /\
     engine_calls (events (main host w)) = []) /\
  ((1 <= length l)%nat ->
     (exists msg, outcome (Calibration.main host w) = Thrown (TypeError msg)) /\
     calibration_calls (events (Calibration.main host w)) = []).
Proof.
  intros Hi Hp. split.
  - intros main Hlen Hmain.
    destruct (stacking_main_calls host w main Hmain) as (Ho & He & _).
    rewrite Ho, He.
    destruct (integrate_and_save_null_params host w (JArr l) Hi Hp) as [msg ->].
    + rewrite count_test_array. f_equal. apply Z.ltb_ge. lia.
    + simpl. eauto.
  - intros Hlen.
    destruct (ToString host (property (JArr l) "0")) as [first|] eqn:Hfirst.
    + destruct (calibration_null_params host w l first Hi Hlen Hfirst Hp) as [msg ->].
      cbn [outcome events]. split; [eauto | reflexivity].
    + rewrite (calibration_first_unprintable host w l Hi Hlen Hfirst).
      cbn [outcome events]. split; [eauto | reflexivity].
Qed.

(** X6. The calibration script reads [params.json] after it counted
    the inputs and printed two lines about them: with one input or more,
    a first entry that can be printed (a string, say) and no
    [params.json], it throws the missing-file error for [params.json]
    after those lines, and calls no engine. *)
Theorem calibration_missing_params_after_count (l : list json) (first : string) :
  loads host w inputFilePath (JArr l) ->
  (1 <= length l)%nat ->
  ToString host (property (JArr l) "0") = Some first ->
  files w !! paramFilePath = None ->
  outcome (Calibration.main host w) =
    Thrown (Error ("Missing JSON file: " +:+ paramFilePath)) /\
  calibration_calls (events (Calibration.main host w)) = [] /\
  events (Calibration.main host w) =
    [calibration_banner;
     Writeln ("Input files loaded: " +:+ NumberToString host (Z.of_nat (length l)));
     Writeln ("First input file: " +:+ first)].
Proof.
  intros Hi Hlen Hfirst Hf.
  assert (Hp : outcome (readJson host paramFilePath w) =
               Thrown (Error ("Missing JSON file: " +:+ paramFilePath)))
    by now rewrite (readJson_missing host paramFilePath w Hf).
  rewrite (calibration_params_thrown host w l first _ Hi Hlen Hfirst Hp).
  cbn [outcome events]. auto.
Qed.

End WrongKind.

(** ** What holds of every run *)

Section Safety.

Context (host : Host) (w : World).

(** X7. In every run, on every runtime and in every world, a stacking
    script calls the engine at most once and [saveAs] at most once, never
    calls [saveAs] without having called the engine, and returns
    normally only after exactly one engine call and one [saveAs] call
    that did not throw. *)
Theorem stacking_calls_in_every_run (main : Host -> M unit) :
  In main stacking_mains ->
  (length (engine_calls (events (main host w))) <= 1)%nat /\
  (length (save_calls (events (main host w))) <= length (engine_calls (events (main host w))))%nat /\
  (outcome (main host w) = Normal () ->
   exists P id path,
     engine_calls (events (main host w)) = [P] /\
     save_calls (events (main host w)) = [(id, path, (false, false, false, false))] /\
     save_fault host id path = None).
Proof.
  intros Hmain.
  destruct (stacking_main_calls host w main Hmain) as (Ho & He & Hs & _).
  rewrite Ho, He, Hs.
  destruct (integrate_and_save_cases host w)
    as (_ & _ & [(-> & -> & Hn) | [(P & -> & -> & Hn) | (P & id & path & -> & -> & Hout)]]);
    cbn [length]; (split; [lia|]; split; [lia|]); try (intros Hnormal; now destruct Hn).
  intros Hnormal. exists P, id, path. rewrite Hnormal in Hout.
  destruct (save_fault host id path); [discriminate | auto].
Qed.

(** X8. The stacking scripts write files only at the very end.  In
    the version with the sentinel block, a file whose content differs
    after the run is the file [saveAs] was called on or the sentinel, and
    the engine was called once and [saveAs] once; when it is the
    sentinel that differs, that [saveAs] call did not throw and the
    script returned normally.  In the version that ends with [Done.],
    a file whose content differs after the run is the file [saveAs] was
    called on, after one engine call; that version never changes a
    directory. *)
Theorem files_change_only_after_save (path : string) :
  (files (world (StackSignal.main host w)) !! path <> files w !! path ->
   exists P id saved,
     engine_calls (events (StackSignal.main host w)) = [P] /\
     save_calls (events (StackSignal.main host w)) = [(id, saved, (false, false, false, false))] /\
     (path = saved \/ path = "C:/Temp/PixStack/basic_stack_complete.tmp") /\
     (path = "C:/Temp/PixStack/basic_stack_complete.tmp" ->
      save_fault host id saved = None /\
      outcome (StackSignal.main host w) = Normal ())) /\
  (files (world (StackPlain.main host w)) !! path <> files w !! path ->
   exists P id,
     engine_calls (events (StackPlain.main host w)) = [P] /\
     save_calls (events (StackPlain.main host w)) = [(id, path, (false, false, false, false))]) /\
  directories (world (StackPlain.main host w)) = directories w.
Proof.
  destruct (integrate_and_save_cases host w) as (Hfiles & Hdirs & Hcases).
  assert (Hsaved : files (world (integrate_and_save host w)) !! path <> files w !! path ->
            path <> "C:/Temp/PixStack/basic_stack_complete.tmp" /\
            exists P id,
              engine_calls (events (integrate_and_save host w)) = [P] /\
              save_calls (events (integrate_and_save host w)) =
                [(id, path, (false, false, false, false))]).
  { intros Hpath. destruct (Hfiles path Hpath) as (id & outputPath & Hname & Hs).
    split; [rewrite Hname; apply finalPath_is_no_sentinel|].
    destruct Hcases as [(_ & Hs' & _) | [(P & _ & Hs' & _) | (P & id' & path' & HP & _ & _)]];
      [rewrite Hs' in Hs; discriminate Hs | rewrite Hs' in Hs; discriminate Hs |].
    exists P, id. auto. }
  split; [|split].
  - intros Hchanged.
    destruct (StackSignal_run host w) as [Ho _].
    destruct (StackSignal_calls host w) as (He & Hs & _).
    rewrite Ho, He, Hs.
    destruct (outcome (integrate_and_save host w)) as [[]|e|n] eqn:Hout.
    + destruct Hcases as [(_ & _ & Hn) | [(P & _ & _ & Hn) | (P & id & saved & HP & HS & Hres)]];
        try (now destruct Hn).
      assert (Hsave : save_fault host id saved = None)
        by (destruct (save_fault host id saved); [discriminate Hres | reflexivity]).
      exists P, id, saved. split; [exact HP|]. split; [exact HS|].
      split; [|auto].
      destruct (String.eqb_spec path "C:/Temp/PixStack/basic_stack_complete.tmp")
        as [Hs1|Hne]; [now right|left].
      assert (Hpath : files (world (integrate_and_save host w)) !! path <> files w !! path).
      { intros Heq. apply Hchanged. rewrite <- Heq.
        unfold StackSignal.main. rewrite bind_step, Hout.
        apply signal_other_files. exact Hne. }
      destruct (Hsaved Hpath) as (_ & P' & id' & _ & HS').
      rewrite HS in HS'. now injection HS'.
    + assert (Hpath : files (world (integrate_and_save host w)) !! path <> files w !! path).
      { intros Heq. apply Hchanged. rewrite <- Heq.
        unfold StackSignal.main. now rewrite bind_step, Hout. }
      destruct (Hsaved Hpath) as (Hne & P & id & HP & HS).
      exists P, id, path. split; [exact HP|]. split; [exact HS|].
      split; [now left|]. intros Heq. now destruct Hne.
    + assert (Hpath : files (world (integrate_and_save host w)) !! path <> files w !! path).
      { intros Heq. apply Hchanged. rewrite <- Heq.
        unfold StackSignal.main. now rewrite bind_step, Hout. }
      destruct (Hsaved Hpath) as (Hne & P & id & HP & HS).
      exists P, id, path. split; [exact HP|]. split; [exact HS|].
      split; [now left|]. intros Heq. now destruct Hne.
  - intros Hchanged.
    destruct (StackPlain_calls host w) as (He & Hs & _).
    rewrite He, Hs. apply Hsaved.
    intros Heq. apply Hchanged. rewrite <- Heq.
    unfold StackPlain.main. rewrite bind_step.
    now destruct (outcome (integrate_and_save host w)) as [[]|e|n].
  - unfold StackPlain.main. rewrite bind_step.
    destruct (outcome (integrate_and_save host w)) as [[]|e|n]; exact Hdirs.
Qed.

(** X9. In every run, on every runtime and in every world, the
    calibration script calls neither ImageIntegration nor [saveAs] and
    calls the calibration engine at most once.  A run without an engine
    call leaves the world as it was (the script itself writes no
    sentinel and no other file); a run with an engine call leaves the
    world as that call left it.  The script returns normally only after
    one engine call that did not throw, made with one frame per input
    file. *)
Theorem calibration_in_every_run :
  engine_calls (events (Calibration.main host w)) = [] /\
  save_calls (events (Calibration.main host w)) = [] /\
  (length (calibration_calls (events (Calibration.main host w))) <= 1)%nat /\
  (calibration_calls (events (Calibration.main host w)) = [] ->
   world (Calibration.main host w) = w) /\
  (forall P, calibration_calls (events (Calibration.main host w)) = [P] ->
   world (Calibration.main host w) = calibrate_world host P w) /\
  (outcome (Calibration.main host w) = Normal () ->
   exists P l,
     loads host w inputFilePath (JArr l) /\
     targetFrames P = map (fun f => (true, f)) l /\
     calibration_calls (events (Calibration.main host w)) = [P] /\
     calibrate host P = None).
Proof.
  destruct (calibration_cases host w) as (He & Hs & Hcases).
  split; [exact He|]. split; [exact Hs|].
  destruct Hcases as [(-> & Hn & Hw) | (P & l & Hl & _ & Hframes & -> & Hw & Hout)];
    cbn [length].
  - split; [lia|]. split; [auto|]. split; [discriminate|].
    intros Hnormal. now destruct Hn.
  - split; [lia|]. split; [discriminate|]. split.
    + intros P' HP'. injection HP' as <-. exact Hw.
    + intros Hnormal. exists P, l. auto.
Qed.

End Safety.

(** ** The sentinel block, in the launch helper and in the stacking script *)

Section SentinelBlock.

Context (host : Host) (w : World) (fileName : string).

(** The world the block leaves when no file operation fails: the
    directory is there and the sentinel holds one line. *)
Lemma signal_world (w0 : World) :
  io_ok host fileName ->
  signal host fileName w0 =
  {| outcome := Normal ();
     world := {| files := <[ "C:/Temp/PixStack" +:+ fileName := "done" +:+ eol host ]> (files w0);
                 directories := if bool_decide ("C:/Temp/PixStack" ∈ directories w0)
                                then directories w0
                                else {[ "C:/Temp/PixStack" ]} ∪ directories w0;
                 activeWindow := activeWindow w0 |};
     events := [Writeln ("Signal file created successfully: " +:+ "C:/Temp/PixStack" +:+ fileName)] |}.
Proof.
  intros (Hd & Hc & Hw & Ho & Hcl).
  unfold signal, try_catch, File_directoryExists, File_createDirectory,
    File_createForWriting, File_outTextLn, File_close.
  rewrite !bind_step. simpl. rewrite Hd. simpl.
  destruct (bool_decide ("C:/Temp/PixStack" ∈ directories w0)); simpl;
    rewrite ?Hc; simpl; rewrite Hw; simpl; rewrite Ho; simpl; rewrite Hcl; simpl;
    cbv [mbind M_bind bind mret M_ret ret after writeln emit outcome world events];
    simpl; rewrite alter_insert_eq; reflexivity.
Qed.

(** X10. Writing the sentinel is idempotent and safe to repeat.  When no
    file operation fails, the block leaves the working directory in
    place and the sentinel with the one line [done]; running the block
    again on what it left returns normally and leaves exactly the same
    world: the line is written anew, not added, and the directory is not
    made a second time. *)
Theorem signal_twice_is_signal_once :
  io_ok host fileName ->
  files (world (signal host fileName w)) !! ("C:/Temp/PixStack" +:+ fileName)
    = Some ("done" +:+ eol host) /\
  "C:/Temp/PixStack" ∈ directories (world (signal host fileName w)) /\
  outcome (signal host fileName (world (signal host fileName w))) = Normal () /\
  world (signal host fileName (world (signal host fileName w))) =
    world (signal host fileName w).
Proof.
  intros Hio. rewrite !signal_world by exact Hio.
  cbn [world outcome files directories activeWindow].
  split; [apply lookup_insert_eq|].
  assert (Hdir : "C:/Temp/PixStack" ∈
                 (if bool_decide ("C:/Temp/PixStack" ∈ directories w)
                  then directories w
                  else {[ "C:/Temp/PixStack" ]} ∪ directories w)).
  { destruct (bool_decide ("C:/Temp/PixStack" ∈ directories w)) eqn:Hd.
    - now apply bool_decide_eq_true in Hd.
    - set_solver. }
  split; [exact Hdir|]. split; [reflexivity|].
  rewrite insert_insert_eq. rewrite (bool_decide_true _ Hdir). reflexivity.
Qed.

(** X11. The block touches one file only.  On every runtime, whatever
    fails, every file but the sentinel is after the block what it was
    before, the active window is the same, the only directory that may
    have been added is the working directory, and the block returns
    normally. *)
Theorem signal_touches_only_its_file (path : string) :
  path <> "C:/Temp/PixStack" +:+ fileName ->
  files (world (signal host fileName w)) !! path = files w !! path /\
  activeWindow (world (signal host fileName w)) = activeWindow w /\
  (directories (world (signal host fileName w)) = directories w \/
   directories (world (signal host fileName w)) = {[ "C:/Temp/PixStack" ]} ∪ directories w) /\
  outcome (signal host fileName w) = Normal ().
Proof.
  intros Hpath.
  unfold signal, try_catch, File_directoryExists, File_createDirectory,
    File_createForWriting, File_outTextLn, File_close.
  rewrite !bind_step. simpl.
  destruct (io_fault host (DirectoryExists "C:/Temp/PixStack")); simpl; [auto|].
  destruct (bool_decide ("C:/Temp/PixStack" ∈ directories w)); simpl;
    [| destruct (io_fault host (CreateDirectory "C:/Temp/PixStack")); simpl; [auto|] ];
    (destruct (io_fault host (CreateForWriting ("C:/Temp/PixStack" +:+ fileName)));
       simpl; [auto|]);
    (destruct (io_fault host (OutTextLn ("C:/Temp/PixStack" +:+ fileName) "done"));
       simpl; [rewrite lookup_insert_ne by congruence; auto|]);
    (destruct (io_fault host (Close ("C:/Temp/PixStack" +:+ fileName))); simpl;
       rewrite lookup_alter_ne, lookup_insert_ne by congruence; auto).
Qed.

(** X12. A sentinel that exists need not be complete.  When the file
    was made and [outTextLn] then fails, the failure is caught and
    printed, the block returns normally, and the sentinel is left behind
    empty. *)
Theorem signal_cut_short (e : exn) :
  io_fault host (DirectoryExists "C:/Temp/PixStack") = None ->
  io_fault host (CreateDirectory "C:/Temp/PixStack") = None ->
  io_fault host (CreateForWriting ("C:/Temp/PixStack" +:+ fileName)) = None ->
  io_fault host (OutTextLn ("C:/Temp/PixStack" +:+ fileName) "done") = Some e ->
  outcome (signal host fileName w) = Normal () /\
  files (world (signal host fileName w)) !! ("C:/Temp/PixStack" +:+ fileName)
    = Some EmptyString /\
  events (signal host fileName w) = [Writeln ("Error creating signal file: " +:+ message e)].
Proof.
  intros Hd Hc Hw Ho.
  unfold signal, try_catch, File_directoryExists, File_createDirectory,
    File_createForWriting, File_outTextLn.
  rewrite !bind_step. simpl. rewrite Hd. simpl.
  destruct (bool_decide ("C:/Temp/PixStack" ∈ directories w)); simpl;
    rewrite ?Hc; simpl; rewrite Hw; simpl; rewrite Ho; simpl;
    rewrite lookup_insert_eq; auto.
Qed.

(** X13. The line [Signal file created successfully] tells the truth.
    On every runtime, when the block prints that line, the sentinel
    holds the line [done] and the working directory exists; otherwise
    the block prints the one line of its handler. *)
Theorem signal_success_line_is_true :
  (events (signal host fileName w) =
     [Writeln ("Signal file created successfully: " +:+ "C:/Temp/PixStack" +:+ fileName)] ->
   files (world (signal host fileName w)) !! ("C:/Temp/PixStack" +:+ fileName)
     = Some ("done" +:+ eol host) /\
   "C:/Temp/PixStack" ∈ directories (world (signal host fileName w))) /\
  (events (signal host fileName w) =
     [Writeln ("Signal file created successfully: " +:+ "C:/Temp/PixStack" +:+ fileName)] \/
   exists e, events (signal host fileName w) =
     [Writeln ("Error creating signal file: " +:+ message e)]).
Proof.
  unfold signal, try_catch, File_directoryExists, File_createDirectory,
    File_createForWriting, File_outTextLn, File_close.
  rewrite !bind_step. simpl.
  destruct (io_fault host (DirectoryExists "C:/Temp/PixStack")); simpl;
    [split; [discriminate | eauto]|].
  destruct (bool_decide ("C:/Temp/PixStack" ∈ directories w)) eqn:Hdir; simpl;
    [| destruct (io_fault host (CreateDirectory "C:/Temp/PixStack")); simpl;
       [split; [discriminate | eauto]|] ];
    (destruct (io_fault host (CreateForWriting ("C:/Temp/PixStack" +:+ fileName)));
       simpl; [split; [discriminate | eauto]|]);
    (destruct (io_fault host (OutTextLn ("C:/Temp/PixStack" +:+ fileName) "done"));
       simpl; [split; [discriminate | eauto]|]);
    (destruct (io_fault host (Close ("C:/Temp/PixStack" +:+ fileName))); simpl;
       [split; [discriminate | eauto]|]);
    (split; [|auto]; intros _; rewrite lookup_alter_eq, lookup_insert_eq;
     split; [reflexivity|]).
  - now apply bool_decide_eq_true in Hdir.
  - set_solver.
Qed.

(** X14. The working directory is made only when it is missing.  When
    it exists already, [createDirectory] is not called: the block writes
    the sentinel even on a runtime where making a directory fails.  When
    it is missing and cannot be made, nothing is written: the failure is
    caught and printed, and the files are what they were. *)
Theorem directory_made_only_when_missing (e : exn) :
  io_fault host (DirectoryExists "C:/Temp/PixStack") = None ->
  io_fault host (CreateDirectory "C:/Temp/PixStack") = Some e ->
  io_fault host (CreateForWriting ("C:/Temp/PixStack" +:+ fileName)) = None ->
  io_fault host (OutTextLn ("C:/Temp/PixStack" +:+ fileName) "done") = None ->
  io_fault host (Close ("C:/Temp/PixStack" +:+ fileName)) = None ->
  ("C:/Temp/PixStack" ∈ directories w ->
     files (world (signal host fileName w)) !! ("C:/Temp/PixStack" +:+ fileName)
       = Some ("done" +:+ eol host) /\
     directories (world (signal host fileName w)) = directories w) /\
  ("C:/Temp/PixStack" ∉ directories w ->
     world (signal host fileName w) = w /\
     events (signal host fileName w) = [Writeln ("Error creating signal file: " +:+ message e)]).
Proof.
  intros Hd Hc Hw Ho Hcl.
  unfold signal, try_catch, File_directoryExists, File_createDirectory,
    File_createForWriting, File_outTextLn, File_close.
  rewrite !bind_step. simpl. rewrite Hd. simpl. split.
  - intros Hin. rewrite (bool_decide_true _ Hin). simpl.
    rewrite Hw; simpl; rewrite Ho; simpl; rewrite Hcl; simpl.
    rewrite lookup_alter_eq, lookup_insert_eq. auto.
  - intros Hout. rewrite (bool_decide_false _ Hout). simpl.
    rewrite Hc. simpl. auto.
Qed.

End SentinelBlock.

(** ** The output path once more *)

(** X15. Every path the stacking script saves under ends in the
    lower-case suffix [.fits], and it is never shorter than the
    configured path nor more than five units longer; a configured path
    of fewer than five units is kept whole. *)
Theorem finalPath_ends_with_fits (p : string) :
  JsString.endsWith (finalPath p) ".fits" = true /\
  (String.length p <= String.length (finalPath p) <= String.length p + 5)%nat /\
  ((String.length p < 5)%nat -> finalPath p = p +:+ ".fits").
Proof.
  unfold finalPath. split; [apply endsWith_append|].
  rewrite length_append. simpl String.length.
  unfold base.
  destruct (JsString.endsWith (JsString.toLowerCase p) ".fits") eqn:E.
  - apply endsWith_inv in E. destruct E as [Hlen _].
    rewrite toLowerCase_length in Hlen. simpl in Hlen.
    split.
    + unfold JsString.slice0. rewrite substring_length by lia. lia.
    + intros Hshort. lia.
  - split; [lia | reflexivity].
Qed.

(** ** The further properties on concrete runs *)

Lemma falsy_inputs_exit_with_1_witness :
  loads MoreRuns.runtime MoreRuns.null_inputs inputFilePath JNull /\
  outcome (StackSignal.main MoreRuns.runtime MoreRuns.null_inputs) = Exited 1 /\
  outcome (Calibration.main MoreRuns.runtime MoreRuns.null_inputs) = Exited 1.
Proof.
  assert (Hi : loads MoreRuns.runtime MoreRuns.null_inputs inputFilePath JNull) by reflexivity.
  assert (Hp : loads MoreRuns.runtime MoreRuns.null_inputs paramFilePath
                 (JObj [("output_path", JStr "C:/out/stack")])) by reflexivity.
  destruct (falsy_inputs_exit_with_1 MoreRuns.runtime MoreRuns.null_inputs JNull Hi eq_refl)
    as [Hstack Hcal].
  split; [exact Hi|]. split.
  - apply (Hstack _ StackSignal.main Hp (or_introl eq_refl)).
  - apply Hcal.
Defined.

Lemma non_array_inputs_never_reach_engine_witness :
  loads MoreRuns.runtime MoreRuns.string_inputs inputFilePath (JStr "ab") /\
  engine_calls (events (StackPlain.main MoreRuns.runtime MoreRuns.string_inputs)) = [] /\
  outcome (StackPlain.main MoreRuns.runtime MoreRuns.string_inputs) <> Normal () /\
  calibration_calls (events (Calibration.main MoreRuns.runtime MoreRuns.string_inputs)) = [].
Proof.
  assert (Hi : loads MoreRuns.runtime MoreRuns.string_inputs inputFilePath (JStr "ab"))
    by reflexivity.
  assert (Harr : forall l, JStr "ab" <> JArr l) by discriminate.
  destruct (non_array_inputs_never_reach_engine MoreRuns.runtime MoreRuns.string_inputs
              (JStr "ab") Hi Harr) as [Hstack [Hcal _]].
  destruct (Hstack StackPlain.main (or_intror (or_introl eq_refl))) as (He & _ & Hn).
  split; [exact Hi|]. split; [exact He|]. split; [exact Hn | exact Hcal].
Defined.

Lemma missing_output_path_fails_after_integration_witness :
  loads MoreRuns.runtime MoreRuns.empty_params paramFilePath (JObj []) /\
  engine_calls (events (StackSignal.main MoreRuns.runtime MoreRuns.empty_params)) =
    [integration_instance (frames_of [JStr "a.fits"; JStr "b.fits"])] /\
  save_calls (events (StackSignal.main MoreRuns.runtime MoreRuns.empty_params)) = [] /\
  files (world (StackSignal.main MoreRuns.runtime MoreRuns.empty_params)) =
    files MoreRuns.empty_params.
Proof.
  assert (Hi : loads MoreRuns.runtime MoreRuns.empty_params inputFilePath
                 (JArr [JStr "a.fits"; JStr "b.fits"])) by reflexivity.
  assert (Hlen : (2 <= length [JStr "a.fits"; JStr "b.fits"])%nat) by (simpl; lia).
  assert (Hp : loads MoreRuns.runtime MoreRuns.empty_params paramFilePath (JObj []))
    by reflexivity.
  assert (Hnull : JObj [] <> JNull) by discriminate.
  assert (Hout : forall s, property (JObj []) "output_path" <> Js (JStr s)) by discriminate.
  destruct (missing_output_path_fails_after_integration MoreRuns.runtime MoreRuns.empty_params
              _ _ 1%nat StackSignal.main Hi Hlen Hp Hnull Hout eq_refl (or_introl eq_refl))
    as (He & Hs & _ & Hfiles).
  split; [exact Hp|]. split; [exact He|]. split; [exact Hs | exact Hfiles].
Defined.

Lemma null_params_throw_before_engine_witness :
  loads MoreRuns.runtime MoreRuns.null_params paramFilePath JNull /\
  engine_calls (events (StackSignal.main MoreRuns.runtime MoreRuns.null_params)) = [] /\
  calibration_calls (events (Calibration.main MoreRuns.runtime MoreRuns.null_params)) = [].
Proof.
  assert (Hi : loads MoreRuns.runtime MoreRuns.null_params inputFilePath
                 (JArr [JStr "a.fits"; JStr "b.fits"])) by reflexivity.
  assert (Hp : loads MoreRuns.runtime MoreRuns.null_params paramFilePath JNull) by reflexivity.
  assert (H2 : (2 <= length [JStr "a.fits"; JStr "b.fits"])%nat) by (simpl; lia).
  assert (H1 : (1 <= length [JStr "a.fits"; JStr "b.fits"])%nat) by (simpl; lia).
  destruct (null_params_throw_before_engine MoreRuns.runtime MoreRuns.null_params _ Hi Hp)
    as [Hstack Hcal].
  split; [exact Hp|]. split.
  - apply (Hstack StackSignal.main H2 (or_introl eq_refl)).
  - apply (Hcal H1).
Defined.

Lemma calibration_missing_params_after_count_witness :
  files MoreRuns.one_frame_no_params !! paramFilePath = None /\
  outcome (Calibration.main MoreRuns.runtime MoreRuns.one_frame_no_params) =
    Thrown (Error "Missing JSON file: C:/Temp/PixStack/params.json").
Proof.
  assert (Hi : loads MoreRuns.runtime MoreRuns.one_frame_no_params inputFilePath
                 (JArr [JStr "a.fits"])) by reflexivity.
  assert (Hlen : (1 <= length [JStr "a.fits"])%nat) by (simpl; lia).
  assert (Hf : files MoreRuns.one_frame_no_params !! paramFilePath = None) by reflexivity.
  split; [exact Hf|].
  apply (calibration_missing_params_after_count MoreRuns.runtime MoreRuns.one_frame_no_params
           _ "a.fits" Hi Hlen eq_refl Hf).
Defined.

Lemma stacking_calls_in_every_run_witness :
  In StackSignal.main stacking_mains /\
  (length (engine_calls (events (StackSignal.main Scenario.runtime Scenario.two_frames))) <= 1)%nat /\
  (length (save_calls (events (StackSignal.main Scenario.runtime_engine_fails Scenario.two_frames)))
     <= length (engine_calls (events (StackSignal.main Scenario.runtime_engine_fails Scenario.two_frames))))%nat.
Proof.
  assert (Hmain : In StackSignal.main stacking_mains) by (left; reflexivity).
  split; [exact Hmain|]. split.
  - apply (stacking_calls_in_every_run Scenario.runtime Scenario.two_frames _ Hmain).
  - apply (stacking_calls_in_every_run Scenario.runtime_engine_fails Scenario.two_frames
             _ Hmain).
Defined.

Lemma files_change_only_after_save_witness :
  files (world (StackSignal.main Scenario.runtime Scenario.two_frames))
    !! "C:/Temp/PixStack/basic_stack_complete.tmp"
    <> files Scenario.two_frames !! "C:/Temp/PixStack/basic_stack_complete.tmp" /\
  exists P id saved,
    engine_calls (events (StackSignal.main Scenario.runtime Scenario.two_frames)) = [P] /\
    save_calls (events (StackSignal.main Scenario.runtime Scenario.two_frames)) =
      [(id, saved, (false, false, false, false))] /\
    save_fault Scenario.runtime id saved = None /\
    outcome (StackSignal.main Scenario.runtime Scenario.two_frames) = Normal ().
Proof.
  assert (Hchanged : files (world (StackSignal.main Scenario.runtime Scenario.two_frames))
                       !! "C:/Temp/PixStack/basic_stack_complete.tmp"
                     <> files Scenario.two_frames !! "C:/Temp/PixStack/basic_stack_complete.tmp").
  { intros Heq. vm_compute in Heq. discriminate Heq. }
  split; [exact Hchanged|].
  destruct (proj1 (files_change_only_after_save Scenario.runtime Scenario.two_frames _) Hchanged)
    as (P & id & saved & HP & HS & _ & Hdone).
  exists P, id, saved. split; [exact HP|]. split; [exact HS|]. exact (Hdone eq_refl).
Defined.

Lemma signal_twice_is_signal_once_witness :
  io_ok Scenario.runtime "/launch_done.tmp" /\
  files (world (LaunchHelper.script Scenario.runtime MoreRuns.bare))
    !! "C:/Temp/PixStack/launch_done.tmp" = Some ("done" +:+ Scenario.line_feed) /\
  world (LaunchHelper.script Scenario.runtime
           (world (LaunchHelper.script Scenario.runtime MoreRuns.bare))) =
    world (LaunchHelper.script Scenario.runtime MoreRuns.bare).
Proof.
  assert (Hio : io_ok Scenario.runtime "/launch_done.tmp") by (repeat split; reflexivity).
  destruct (signal_twice_is_signal_once Scenario.runtime MoreRuns.bare "/launch_done.tmp" Hio)
    as (Hdone & _ & _ & Hsame).
  split; [exact Hio|]. split; [exact Hdone | exact Hsame].
Defined.

Lemma signal_touches_only_its_file_witness :
  inputFilePath <> "C:/Temp/PixStack" +:+ "/launch_done.tmp" /\
  files (world (LaunchHelper.script Scenario.runtime_disk_full Scenario.two_frames))
    !! inputFilePath = Some Scenario.two_inputs.
Proof.
  assert (Hne : inputFilePath <> "C:/Temp/PixStack" +:+ "/launch_done.tmp") by discriminate.
  split; [exact Hne|].
  destruct (signal_touches_only_its_file Scenario.runtime_disk_full Scenario.two_frames
              "/launch_done.tmp" inputFilePath Hne) as [Hsame _].
  unfold LaunchHelper.script. rewrite Hsame. reflexivity.
Defined.

Lemma signal_cut_short_witness :
  io_fault MoreRuns.runtime_short_write
    (OutTextLn ("C:/Temp/PixStack" +:+ "/launch_done.tmp") "done") = Some (Error "write failed") /\
  files (world (LaunchHelper.script MoreRuns.runtime_short_write MoreRuns.bare))
    !! "C:/Temp/PixStack/launch_done.tmp" = Some EmptyString /\
  events (LaunchHelper.script MoreRuns.runtime_short_write MoreRuns.bare) =
    [Writeln "Error creating signal file: write failed"].
Proof.
  split; [reflexivity|].
  destruct (signal_cut_short MoreRuns.runtime_short_write MoreRuns.bare "/launch_done.tmp"
              (Error "write failed") eq_refl eq_refl eq_refl eq_refl) as (_ & Hempty & Hline).
  split; [exact Hempty | exact Hline].
Defined.

Lemma directory_made_only_when_missing_witness :
  io_fault MoreRuns.runtime_no_mkdir (CreateDirectory "C:/Temp/PixStack")
    = Some (Error "access denied") /\
  files (world (LaunchHelper.script MoreRuns.runtime_no_mkdir Scenario.empty_disk))
    !! "C:/Temp/PixStack/launch_done.tmp" = Some ("done" +:+ Scenario.line_feed) /\
  world (LaunchHelper.script MoreRuns.runtime_no_mkdir MoreRuns.bare) = MoreRuns.bare.
Proof.
  split; [reflexivity|].
  destruct (directory_made_only_when_missing MoreRuns.runtime_no_mkdir Scenario.empty_disk
              "/launch_done.tmp" (Error "access denied") eq_refl eq_refl eq_refl eq_refl eq_refl)
    as [Hpresent _].
  destruct (directory_made_only_when_missing MoreRuns.runtime_no_mkdir MoreRuns.bare
              "/launch_done.tmp" (Error "access denied") eq_refl eq_refl eq_refl eq_refl eq_refl)
    as [_ Hmissing].
  split.
  - apply Hpresent. vm_compute. set_solver.
  - apply Hmissing. vm_compute. set_solver.
Defined.
